(** * CATSEEK R1: the conversational response orchestrator

    A shallow embedding of the two shipped programs,

      - [CatSEEKR1.py]     (the simple, single-threaded variant), and
      - [CatSEEK.test.py]  (the backend variant with the mock NPU model
                            and its background threads),

    together with the properties of the response strategy, the inference
    backend, the readiness gate, the typing indicator and the
    conversation controller.

    Conventions of the embedding.

      - A Python [str] is a [string]: a sequence of code points below 256
        (the Latin-1 range), one [ascii] per code point.
      - Calls of the [random] module take their draw as an explicit
        natural number.
      - The tkinter widgets are the rendering surface: every call on a
        widget that returns is recorded, newest first, in a trace
        together with the execution context (UI loop or worker thread)
        it ran in.  The commands of the text widget answer as Tk's do: a
        call Tk refuses (a string that is no text index, or [None] where
        an index is due) raises [TclError] and is not recorded, and a
        DISABLED text widget ignores insertions and deletions, so that
        the transcript is made of the insertions into a NORMAL widget.
        The entry's content and the timers of [after] are kept as state.
      - Python exceptions are the [Raise] outcome of a small
        state-and-exception monad. *)

From Stdlib Require Import String Ascii List Arith Bool Lia PeanoNat.
From Stdlib Require Import Decimal DecimalString DecimalNat.
Import ListNotations.
Open Scope string_scope.

(* ================================================================== *)
(** ** Python string operations used by the programs *)

Module PyStr.

(** [str.lower] on one code point below 256: the ASCII capitals and the
    Latin-1 capitals (192..222 without the multiplication sign 215)
    move up by 32. *)
Definition lower_char (c : ascii) : ascii :=
  let n := nat_of_ascii c in
  if ((65 <=? n)%nat && (n <=? 90)%nat)
     || ((192 <=? n)%nat && (n <=? 222)%nat && negb (n =? 215)%nat)
  then ascii_of_nat (n + 32)
  else c.

Fixpoint lower (s : string) : string :=
  match s with
  | EmptyString => EmptyString
  | String c s' => String (lower_char c) (lower s')
  end.

(** [str.isspace] on one code point below 256. *)
Definition isspace (c : ascii) : bool :=
  let n := nat_of_ascii c in
  ((9 <=? n)%nat && (n <=? 13)%nat) || ((28 <=? n)%nat && (n <=? 32)%nat)
  || (n =? 133)%nat || (n =? 160)%nat.

Fixpoint lstrip (s : string) : string :=
  match s with
  | EmptyString => EmptyString
  | String c s' => if isspace c then lstrip s' else s
  end.

Fixpoint rstrip (s : string) : string :=
  match s with
  | EmptyString => EmptyString
  | String c s' =>
      match rstrip s' with
      | EmptyString => if isspace c then EmptyString else String c EmptyString
      | r => String c r
      end
  end.

(** [s.strip()] *)
Definition strip (s : string) : string := rstrip (lstrip s).

(** [sub in s] *)
Fixpoint contains (sub s : string) : bool :=
  match s with
  | EmptyString => prefix sub s
  | String _ s' => prefix sub s || contains sub s'
  end.

(** Truth value of a string: [not s] is [negb (truthy s)]. *)
Definition truthy (s : string) : bool :=
  match s with
  | EmptyString => false
  | String _ _ => true
  end.

(** Every character of [s] is white space. *)
Fixpoint all_space (s : string) : bool :=
  match s with
  | EmptyString => true
  | String c s' => isspace c && all_space s'
  end.

(** [str(n)] for a non-negative integer. *)
Definition str_of_nat (n : nat) : string :=
  NilEmpty.string_of_uint (Nat.to_uint n).

(** [sep.join(l)] *)
Fixpoint join (sep : string) (l : list string) : string :=
  match l with
  | [] => ""
  | [x] => x
  | x :: rest => x ++ sep ++ join sep rest
  end.

(** [any(k in s for k in keys)] *)
Definition any_in (keys : list string) (s : string) : bool :=
  existsb (fun k => contains k s) keys.

End PyStr.

(* ================================================================== *)
(** ** Python run-time: exceptions, object state, the [random] module *)

Module Py.

Inductive exn : Type :=
| AttributeError (name : string)
| KeyError (key : string)
| IndexError
| TclError.                         (* _tkinter.TclError *)

Inductive outcome (A : Type) : Type :=
| Ok (a : A)
| Raise (e : exn).
Arguments Ok {A} a.
Arguments Raise {A} e.

(** A method body: it reads and writes the object state [S] and either
    returns a value or raises; the state reached so far survives a
    raise, as the attributes of a Python object do. *)
Definition M (S A : Type) : Type := S -> outcome A * S.

Definition ret {S A} (a : A) : M S A := fun s => (Ok a, s).

Definition bind {S A B} (m : M S A) (k : A -> M S B) : M S B :=
  fun s =>
    match m s with
    | (Ok a, s') => k a s'
    | (Raise e, s') => (Raise e, s')
    end.

Definition gets {S A} (f : S -> A) : M S A := fun s => (Ok (f s), s).

Definition modify {S} (f : S -> S) : M S unit := fun s => (Ok tt, f s).

Definition lift {S A} (o : outcome A) : M S A := fun s => (o, s).

(** Reading an attribute that may not have been assigned yet. *)
Definition getattr {S A} (name : string) (f : S -> option A) : M S A :=
  fun s =>
    match f s with
    | Some a => (Ok a, s)
    | None => (Raise (AttributeError name), s)
    end.

Definition exec {S A} (m : M S A) (s : S) : S := snd (m s).

Definition result {S A} (m : M S A) (s : S) : outcome A := fst (m s).

(** [d[key]] on a dict with string keys. *)
Fixpoint getitem {A} (d : list (string * A)) (key : string) : outcome A :=
  match d with
  | [] => Raise (KeyError key)
  | (k, v) :: d' => if String.eqb k key then Ok v else getitem d' key
  end.

(** [random.choice(seq)], the draw being [r]. *)
Definition choice (r : nat) (seq : list string) : outcome string :=
  match seq with
  | [] => Raise IndexError
  | _ => Ok (nth (r mod length seq) seq "")
  end.

(** [random.randint(a, b)], the draw being [r]. *)
Definition randint (r a b : nat) : nat := a + r mod (b - a + 1).

(** [pool[j] = v] *)
Fixpoint setitem (pool : list string) (j : nat) (v : string) : list string :=
  match pool, j with
  | [], _ => []
  | _ :: rest, 0 => v :: rest
  | x :: rest, S j' => x :: setitem rest j' v
  end.

(** The selection loop of [random.sample] over a copy of the
    population: with [n] candidates left, position [j] below [n] is
    drawn, [pool[j]] is taken and the last candidate moves to [j]. *)
Fixpoint sample_loop (pool : list string) (n : nat) (rs : list nat)
  : list string :=
  match rs with
  | [] => []
  | r :: rs' =>
      let j := r mod n in
      nth j pool ""
        :: sample_loop (setitem pool j (nth (n - 1) pool "")) (n - 1) rs'
  end.

(** [random.sample(population, k)] with the [k] draws [rs]. *)
Definition sample (rs : list nat) (population : list string) : list string :=
  sample_loop population (length population) rs.

End Py.

Declare Scope py_scope.
Delimit Scope py_scope with py.
Notation "x <- m ;; k" := (Py.bind m (fun x => k))
  (at level 61, m at next level, right associativity) : py_scope.
Notation "m ;; k" := (Py.bind m (fun _ => k))
  (at level 61, right associativity) : py_scope.
Notation "'let?' x := o 'in' k" :=
  (match o with Py.Ok x => k | Py.Raise e => Py.Raise e end)
  (at level 61, x name, o at next level, k at level 200) : py_scope.

(* ================================================================== *)
(** ** The rendering surface: tkinter calls *)

Module Tk.

Inductive tkstate : Type := NORMAL | DISABLED.

(** Where a piece of code runs: the Tk main loop or a
    [threading.Thread]. *)
Inductive context : Type := UI | Worker.

(** The value [Text.insert] returns: tkinter's [insert] has no [return]
    statement, so it is [None].  The backend variant stores it in
    [typing_id] and passes it on where a text index is due. *)
Inductive pyvalue : Type := PyNone.

(** What the programs pass as a text index: a string such as [tk.END], a
    stored value, or the formatted string [f"{value}suffix"]. *)
Inductive index : Type :=
| IStr (s : string)
| IVal (v : pyvalue)
| IFmt (v : pyvalue) (suffix : string).

Definition END : index := IStr "end".

(** Which of the index expressions of the programs Tk takes as a text
    index: ["end"] and the two forms with a modifier.  A bare tag name
    such as ["typing"] is no index (Tk wants ["typing.first"] or
    ["typing.last"]), and ["None+13c"] is none either. *)
Definition index_ok (i : index) : bool :=
  match i with
  | IStr s => existsb (String.eqb s) ["end"; "end-1c linestart"; "end-1c lineend"]
  | IVal PyNone => false
  | IFmt PyNone _ => false
  end.

(** How the text widget answers a command. *)
Inductive reply : Type :=
| Applied       (* carried out *)
| Ignored       (* returns normally, the widget is DISABLED *)
| Refused.      (* raises TclError *)

Inductive call : Type :=
| TextConfigure (st : tkstate)                      (* chat_display.configure(state=) *)
| TextInsert (i : index) (chars tag : string)       (* chat_display.insert *)
| TextDelete (i1 : index) (i2 : option index)       (* chat_display.delete *)
| TextTagAdd (tag : string) (i1 i2 : index)         (* chat_display.tag_add *)
| TextYview (i : index)                             (* chat_display.yview *)
| TextSee (i : index)                               (* chat_display.see *)
| EntryDelete                                       (* user_input.delete(0, END) *)
| EntryConfig (st : tkstate)                        (* user_input.config(state=) *)
| ButtonConfig (st : tkstate)                       (* send_btn.config(state=) *)
| StatusConfig (text : string)                      (* status_label.config(text=) *)
| ContextConfig (text : string).                    (* context_label.config(text=) *)

Definition trace : Type := list (context * call).

Definition tkstate_eqb (a b : tkstate) : bool :=
  match a, b with
  | NORMAL, NORMAL | DISABLED, DISABLED => true
  | _, _ => false
  end.

Definition context_eqb (a b : context) : bool :=
  match a, b with
  | UI, UI | Worker, Worker => true
  | _, _ => false
  end.

(** The [state] option of the entry after the calls of [tr]; a fresh
    entry is enabled. *)
Fixpoint entry_state (tr : trace) : tkstate :=
  match tr with
  | [] => NORMAL
  | (_, EntryConfig st) :: _ => st
  | _ :: tr' => entry_state tr'
  end.

Definition input_enabled (tr : trace) : bool :=
  tkstate_eqb (entry_state tr) NORMAL.

(** The [state] option of the text widget after the calls of [tr]; a
    fresh text widget is NORMAL. *)
Fixpoint text_state (tr : trace) : tkstate :=
  match tr with
  | [] => NORMAL
  | (_, TextConfigure st) :: _ => st
  | _ :: tr' => text_state tr'
  end.

(** [Text.insert(i, chars, tag)] on a widget in state [st].  tkinter
    cuts the arguments of the Tcl command at the first [None], so with
    [None] as index the command has too few arguments; otherwise Tk
    parses the index, and then inserts only if the widget is NORMAL. *)
Definition insert_reply (st : tkstate) (i : index) : reply :=
  if index_ok i then
    match st with NORMAL => Applied | DISABLED => Ignored end
  else Refused.

(** [Text.delete(i1, i2)] on a widget in state [st].  With [None] as
    first index the Tcl command has too few arguments; otherwise a
    DISABLED widget ignores the command, and a NORMAL one parses the
    indices it got ([None] as second index is no argument). *)
Definition delete_reply (st : tkstate) (i1 : index) (i2 : option index)
  : reply :=
  match i1 with
  | IVal PyNone => Refused
  | _ =>
      match st with
      | DISABLED => Ignored
      | NORMAL =>
          if index_ok i1
             && match i2 with
                | None | Some (IVal PyNone) => true
                | Some i => index_ok i
                end
          then Applied else Refused
      end
  end.

(** The messages put into the transcript, oldest first, as (tag, text):
    the [insert] calls made while the text widget was NORMAL; Tk ignores
    an insertion into a DISABLED text widget. *)
Fixpoint inserts (tr : trace) : list (string * string) :=
  match tr with
  | [] => []
  | (_, TextInsert _ chars tag) :: tr' =>
      match text_state tr' with
      | NORMAL => inserts tr' ++ [(tag, chars)]
      | DISABLED => inserts tr'
      end
  | _ :: tr' => inserts tr'
  end.

(** The calls of [tr] that ran in context [c]. *)
Definition calls_in (c : context) (tr : trace) : list call :=
  map snd (filter (fun e => context_eqb (fst e) c) tr).

End Tk.

(* ================================================================== *)
(** ** CatSEEKR1.py: the simple variant *)

Module CatSEEKR1.
Import PyStr Py Tk.
Local Open Scope py_scope.

Module CatMind.

(** [self.knowledge['responses']] *)
Definition responses : list (string * list string) :=
  [ ("hello", ["Meow! Welcome human."; "Purr... Ready for questions?";
               "*head bump* Hello!"]);
    ("question", ["Ancient feline secret... but where's the tuna?";
                  "Paw-sitive maybe, needs more nap time";
                  "Answer hidden in the litter box"]);
    ("default", ["*tail flick* Try again with fishier question";
                 "Napping engine engaged... Zzz"]) ].

Definition greets : list string := ["hi"; "hello"; "hey"].

(** The [if]/[elif]/[else] of [generate_response] that chooses the
    category. *)
Definition category (input_text : string) : string :=
  if contains "?" input_text then "question"
  else if any_in greets (lower input_text) then "hello"
  else "default".

Definition generate_response (r : nat) (input_text : string)
  : outcome string :=
  let? pool := getitem responses (category input_text) in
  choice r pool.

End CatMind.

Module CatSeekGUI.

(** What [master.after] is asked to call later. *)
Inductive callback : Type :=
| Cb_generate_response (user_text : string)
| Cb_animate (count : nat).

Record timer : Type := { t_id : nat; t_ms : nat; t_cb : callback }.

Record t : Type := {
  user_input : string;              (* content of the entry *)
  typing_animation : option nat;    (* None, or an id of [after] *)
  imagination_running : bool;
  trace : Tk.trace;                 (* widget calls, newest first *)
  timers : list timer;              (* pending [after] callbacks *)
  next_id : nat                     (* next id [after] returns *)
}.

Definition tk (c : call) : M t unit :=
  modify (fun g =>
    {| user_input := user_input g;
       typing_animation := typing_animation g;
       imagination_running := imagination_running g;
       trace := (UI, c) :: trace g;
       timers := timers g;
       next_id := next_id g |}).

(** [self.master.after(ms, cb)] *)
Definition after (ms : nat) (cb : callback) : M t nat :=
  fun g =>
    (Ok (next_id g),
     {| user_input := user_input g;
        typing_animation := typing_animation g;
        imagination_running := imagination_running g;
        trace := trace g;
        timers := timers g ++ [{| t_id := next_id g; t_ms := ms; t_cb := cb |}];
        next_id := S (next_id g) |}).

(** [self.master.after_cancel(id)] *)
Definition after_cancel (id : nat) : M t unit :=
  modify (fun g =>
    {| user_input := user_input g;
       typing_animation := typing_animation g;
       imagination_running := imagination_running g;
       trace := trace g;
       timers := filter (fun tm => negb (t_id tm =? id)%nat) (timers g);
       next_id := next_id g |}).

Definition set_typing_animation (v : option nat) : M t unit :=
  modify (fun g =>
    {| user_input := user_input g;
       typing_animation := v;
       imagination_running := imagination_running g;
       trace := trace g;
       timers := timers g;
       next_id := next_id g |}).

(** [self.user_input.delete(0, tk.END)] *)
Definition entry_delete : M t unit :=
  modify (fun g =>
    {| user_input := "";
       typing_animation := typing_animation g;
       imagination_running := imagination_running g;
       trace := (UI, EntryDelete) :: trace g;
       timers := timers g;
       next_id := next_id g |}).

(** [self.chat_display.delete(i1)]: refused by Tk it raises [TclError]
    and the widget stays as it is. *)
Definition text_delete (i1 : index) (i2 : option index) : M t unit :=
  st <- gets (fun g => text_state (trace g)) ;;
  match delete_reply st i1 i2 with
  | Refused => lift (Raise TclError)
  | _ => tk (TextDelete i1 i2)
  end.

Definition _show_message (text sender : string) : M t unit :=
  tk (TextConfigure NORMAL) ;;
  tk (TextInsert END (String "010" text ++ String "010" "") sender) ;;
  tk (TextConfigure DISABLED) ;;
  tk (TextYview END).

Definition dots : list string := [""; "."; ".."; "..."].

(** The inner [animate] of [_show_typing].  The widget has just been
    made NORMAL, so Tk parses the index ["typing"] of the [delete]. *)
Definition animate (count : nat) : M t unit :=
  tk (TextConfigure NORMAL) ;;
  text_delete (IStr "typing") None ;;
  tk (TextInsert END
        (String "010" "Cat is thinking" ++ nth (count mod 4) dots "") "bot") ;;
  tk (TextTagAdd "typing" (IStr "end-1c linestart") (IStr "end-1c lineend")) ;;
  tk (TextConfigure DISABLED) ;;
  tk (TextYview END) ;;
  id <- after 300 (Cb_animate (count + 1)) ;;
  set_typing_animation (Some id).

Definition _show_typing : M t unit := animate 0.

(** On the branch of [typing_animation] the tick is cancelled and
    [delete("typing")] follows: Tk refuses it if the text widget is
    NORMAL and ignores it if the widget is DISABLED. *)
Definition _generate_response (r : nat) (user_text : string) : M t unit :=
  ta <- gets typing_animation ;;
  match ta with
  | Some id =>
      after_cancel id ;;
      text_delete (IStr "typing") None
  | None => ret tt
  end ;;
  response <- lift (CatMind.generate_response r user_text) ;;
  _show_message response "bot".

Definition send_message : M t unit :=
  raw <- gets user_input ;;
  let user_text := strip raw in
  if negb (truthy user_text) then ret tt
  else
    _show_message user_text "user" ;;
    entry_delete ;;
    _show_typing ;;
    _ <- after 800 (Cb_generate_response user_text) ;;
    ret tt.

(** The object before [__init__] has assigned anything. *)
Definition blank : t :=
  {| user_input := ""; typing_animation := None;
     imagination_running := false;
     trace := []; timers := []; next_id := 0 |}.

(** [__init__]: the attributes are set and the first bot message is
    shown. *)
Definition __init__ : M t unit :=
  _show_message "Hi I'm Catseek. How can I help you today?" "bot".

Definition init : t := exec __init__ blank.

(** The user types [text] into the entry. *)
Definition with_input (text : string) (g : t) : t :=
  {| user_input := text;
     typing_animation := typing_animation g;
     imagination_running := imagination_running g;
     trace := trace g;
     timers := timers g;
     next_id := next_id g |}.

End CatSeekGUI.

End CatSEEKR1.

(* ================================================================== *)
(** ** CatSEEK.test.py: the backend variant *)

Module CatSEEK_test.
Import PyStr Py Tk.
Local Open Scope py_scope.

Module NPUModel.

(** The attributes of the model; [response_queue] is never used. *)
Record t : Type := { initialized : bool }.

(** The draws one call of [generate_response] makes. *)
Record draws : Type := {
  r_choice : nat;     (* random.choice(response_patterns[category]) *)
  r_temp : nat;       (* random.randint(30, 45) *)
  r_load : nat;       (* random.randint(10, 95) *)
  r_mem : nat;        (* random.randint(1, 8) *)
  r_time : nat;       (* random.uniform(0.1, 0.9) *)
  r_pick0 : nat;      (* first selection of random.sample *)
  r_pick1 : nat       (* second selection of random.sample *)
}.

Definition __init__ : t := {| initialized := false |}.

(** [initialize_model], after its two seconds of sleep. *)
Definition initialize_model (m : t) : t := {| initialized := true |}.

Definition response_patterns : list (string * list string) :=
  [ ("greeting", ["Purr... Welcome to CATSEEK R1!"; "Meow! How can I help?";
                  "*head bump* Hello!"]);
    ("question", ["Based on my feline calculations:";
                  "Paws-itive analysis suggests:";
                  "The cat dimension reveals:"]);
    ("technical", ["NPU matrix calculations complete:";
                   "Neural whiskers indicate:";
                   "Quantum cat superposition shows:"]) ].

Definition greets : list string := ["hi"; "hello"; "hey"].

(** The [if]/[elif]/[else] of [generate_response] that chooses the
    category. *)
Definition category (input_text : string) : string :=
  if any_in greets (lower input_text) then "greeting"
  else if contains "?" input_text then "question"
  else "technical".

(** [f"{random.uniform(0.1, 0.9):.1f}"]: floating point is not modelled;
    the text printed with one decimal is one of 0.1, ..., 0.9 and the
    draw fixes which. *)
Definition format_uniform (r : nat) : string :=
  "0." ++ str_of_nat (randint r 1 9).

(** The list [components] of [_generate_technical_response]. *)
Definition components (d : draws) : list string :=
  [ "core temp: " ++ str_of_nat (randint (r_temp d) 30 45) ++ String "176" "C";
    "NPU load: " ++ str_of_nat (randint (r_load d) 10 95) ++ "%";
    "memory usage: " ++ str_of_nat (randint (r_mem d) 1 8) ++ "GB";
    "inference time: " ++ format_uniform (r_time d) ++ "s" ].

Definition _generate_technical_response (d : draws) : string :=
  "[System: "
    ++ join " | " (sample [r_pick0 d; r_pick1 d] (components d))
    ++ "]".

Definition generate_response (m : t) (d : draws) (input_text : string)
  : outcome string :=
  if negb (initialized m) then Ok "Error: Model not loaded"
  else
    let? pool := getitem response_patterns (category input_text) in
    let? template := choice (r_choice d) pool in
    Ok (template ++ " " ++ _generate_technical_response d).

End NPUModel.

(** What [master.after] is asked to call later. *)
Inductive callback : Type :=
| Cb_check_model_status
| Cb_hide_typing_indicator
| Cb_animate_typing (count : nat).

Record timer : Type := { t_id : nat; t_ms : nat; t_cb : callback }.

(** The function handed to [CatMind.generate_response]. *)
Inductive completion : Type := On_handle_model_response.

(** The targets of the [threading.Thread]s the program starts. *)
Inductive thread : Type :=
| Th_load_model
| Th_run_inference (input_text : string) (on_done : completion).

(** The running program: the attributes of the [CatSeekGUI] object (with
    those of its [CatMind] and [NPUModel]), the state of the Tk
    application, and the threads started and not yet finished. *)
Record t : Type := {
  model : NPUModel.t;               (* self.mind.model *)
  npu_active : bool;
  current_context : list string;
  model_ready : bool;
  typing_id : option pyvalue;       (* None: attribute not assigned *)
  typing_anim : option nat;         (* None: attribute not assigned *)
  user_input : string;              (* content of the entry *)
  trace : Tk.trace;                 (* widget calls, newest first *)
  timers : list timer;              (* pending [after] callbacks *)
  next_id : nat;                    (* next id [after] returns *)
  threads : list thread;            (* started, not finished *)
  current : context                 (* the context that is executing *)
}.

Definition set_model (v : NPUModel.t) (g : t) : t :=
  let (_, a, cc, mr, ti, ta, ui, tr, tm, ni, th, cu) := g in
  Build_t v a cc mr ti ta ui tr tm ni th cu.

Definition set_current_context (v : list string) (g : t) : t :=
  let (m, a, _, mr, ti, ta, ui, tr, tm, ni, th, cu) := g in
  Build_t m a v mr ti ta ui tr tm ni th cu.

Definition set_model_ready (v : bool) (g : t) : t :=
  let (m, a, cc, _, ti, ta, ui, tr, tm, ni, th, cu) := g in
  Build_t m a cc v ti ta ui tr tm ni th cu.

Definition set_typing_id (v : option pyvalue) (g : t) : t :=
  let (m, a, cc, mr, _, ta, ui, tr, tm, ni, th, cu) := g in
  Build_t m a cc mr v ta ui tr tm ni th cu.

Definition set_typing_anim (v : option nat) (g : t) : t :=
  let (m, a, cc, mr, ti, _, ui, tr, tm, ni, th, cu) := g in
  Build_t m a cc mr ti v ui tr tm ni th cu.

Definition set_user_input (v : string) (g : t) : t :=
  let (m, a, cc, mr, ti, ta, _, tr, tm, ni, th, cu) := g in
  Build_t m a cc mr ti ta v tr tm ni th cu.

Definition set_trace (v : Tk.trace) (g : t) : t :=
  let (m, a, cc, mr, ti, ta, ui, _, tm, ni, th, cu) := g in
  Build_t m a cc mr ti ta ui v tm ni th cu.

Definition set_timers (v : list timer) (g : t) : t :=
  let (m, a, cc, mr, ti, ta, ui, tr, _, ni, th, cu) := g in
  Build_t m a cc mr ti ta ui tr v ni th cu.

Definition set_next_id (v : nat) (g : t) : t :=
  let (m, a, cc, mr, ti, ta, ui, tr, tm, _, th, cu) := g in
  Build_t m a cc mr ti ta ui tr tm v th cu.

Definition set_threads (v : list thread) (g : t) : t :=
  let (m, a, cc, mr, ti, ta, ui, tr, tm, ni, _, cu) := g in
  Build_t m a cc mr ti ta ui tr tm ni v cu.

Definition set_current (v : context) (g : t) : t :=
  let (m, a, cc, mr, ti, ta, ui, tr, tm, ni, th, _) := g in
  Build_t m a cc mr ti ta ui tr tm ni th v.

(** A widget call: it is recorded with the context that makes it. *)
Definition tk (c : call) : M t unit :=
  modify (fun g => set_trace ((current g, c) :: trace g) g).

(** [self.chat_display.insert(i, chars, tag)]: refused by Tk it raises
    [TclError]; otherwise it returns [None]. *)
Definition text_insert (i : index) (chars tag : string) : M t pyvalue :=
  st <- gets (fun g => text_state (trace g)) ;;
  match insert_reply st i with
  | Refused => lift (Raise TclError)
  | _ => tk (TextInsert i chars tag) ;; ret PyNone
  end.

(** [self.chat_display.delete(i1, i2)]: refused by Tk it raises
    [TclError] and the widget stays as it is. *)
Definition text_delete (i1 : index) (i2 : option index) : M t unit :=
  st <- gets (fun g => text_state (trace g)) ;;
  match delete_reply st i1 i2 with
  | Refused => lift (Raise TclError)
  | _ => tk (TextDelete i1 i2)
  end.

(** [self.master.after(ms, cb)] *)
Definition after (ms : nat) (cb : callback) : M t nat :=
  fun g =>
    (Ok (next_id g),
     set_next_id (S (next_id g))
       (set_timers
          (timers g ++ [{| t_id := next_id g; t_ms := ms; t_cb := cb |}]) g)).

(** [self.master.after_cancel(id)] *)
Definition after_cancel (id : nat) : M t unit :=
  modify (fun g =>
    set_timers (filter (fun tm => negb (t_id tm =? id)%nat) (timers g)) g).

(** [threading.Thread(target=..., daemon=True).start()] *)
Definition start_thread (th : thread) : M t unit :=
  modify (fun g => set_threads (threads g ++ [th]) g).

(** [self.user_input.delete(0, tk.END)]; a disabled entry ignores it. *)
Definition entry_delete : M t unit :=
  tk EntryDelete ;;
  modify (fun g =>
    if input_enabled (trace g) then set_user_input "" g else g).

(** [self.current_context.append(x)] *)
Definition context_append (x : string) : M t unit :=
  modify (fun g => set_current_context (current_context g ++ [x]) g).

Module CatMind.

(** [_initialize_model_async]: the loading runs in a thread of its own. *)
Definition _initialize_model_async : M t unit :=
  start_thread Th_load_model.

(** [generate_response(input_text, callback)]: the inference and the
    call of [callback] run in a thread of their own. *)
Definition generate_response (input_text : string) (on_done : completion)
  : M t unit :=
  start_thread (Th_run_inference input_text on_done).

End CatMind.

Module CatSeekGUI.

Definition _set_input_state (active : bool) : M t unit :=
  let state := if active then NORMAL else DISABLED in
  tk (EntryConfig state) ;;
  tk (ButtonConfig state).

Definition _show_message (text sender : string) : M t unit :=
  tk (TextConfigure NORMAL) ;;
  tk (TextInsert END (String "010" "[" ++ sender ++ "]: " ++ text) sender) ;;
  tk (TextConfigure DISABLED) ;;
  tk (TextSee END).

Definition _show_system_message (text : string) : M t unit :=
  _show_message text "SYSTEM".

(** [r] is the draw of [random.randint(5, 95)]. *)
Definition _update_context_display (r : nat) : M t unit :=
  ctx <- gets current_context ;;
  tk (ContextConfig ("Context: " ++ str_of_nat (length ctx) ++ " items")) ;;
  let load := randint r 5 95 in
  tk (StatusConfig ("NPU Status: Active | Load: " ++ str_of_nat load ++ "%")).

Definition _check_model_status : M t unit :=
  m <- gets model ;;
  ready <- gets model_ready ;;
  (if NPUModel.initialized m && negb ready then
     modify (set_model_ready true) ;;
     _show_system_message "NPU subsystem ready" ;;
     _set_input_state true ;;
     tk (StatusConfig "NPU Status: Active | Load: 0%")
   else ret tt) ;;
  _ <- after 1000 Cb_check_model_status ;;
  ret tt.

(** ["." * n] *)
Fixpoint dots (n : nat) : string :=
  match n with
  | 0 => ""
  | S n' => "." ++ dots n'
  end.

(** [self.typing_id] is read first ([AttributeError] if it was never
    assigned); the value it holds is what [insert] returned, so the
    [delete] is refused. *)
Definition _animate_typing (count : nat) : M t unit :=
  let d := dots (count mod 4) in
  tid <- getattr "typing_id" typing_id ;;
  text_delete (IVal tid) (Some (IFmt tid "+13c")) ;;
  _ <- text_insert (IVal tid)
         (String "010" "[NPU Processing" ++ d ++ "]") "STATUS" ;;
  tk (TextSee END) ;;
  id <- after 300 (Cb_animate_typing (count + 1)) ;;
  modify (set_typing_anim (Some id)).

(** [self.typing_id] is assigned what [insert] returns. *)
Definition _show_typing_indicator : M t unit :=
  v <- text_insert END (String "010" "[NPU Processing") "STATUS" ;;
  modify (set_typing_id (Some v)) ;;
  _animate_typing 0.

Definition _hide_typing_indicator : M t unit :=
  ta <- gets typing_anim ;;
  match ta with                       (* hasattr(self, 'typing_anim') *)
  | Some id => after_cancel id
  | None => ret tt
  end ;;
  tid <- getattr "typing_id" typing_id ;;
  text_delete (IVal tid) (Some (IFmt tid "+13c")).

(** [r] is the draw [_update_context_display] makes. *)
Definition _handle_model_response (response : string) (r : nat) : M t unit :=
  _ <- after 0 Cb_hide_typing_indicator ;;
  _show_message response "NPU" ;;
  context_append response ;;
  _update_context_display r.

(** [r] is the draw [_update_context_display] makes. *)
Definition send_message (r : nat) : M t unit :=
  raw <- gets user_input ;;
  let user_text := strip raw in
  ready <- gets model_ready ;;
  if negb (truthy user_text) || negb ready then ret tt
  else
    _show_message user_text "USER" ;;
    entry_delete ;;
    context_append user_text ;;
    _update_context_display r ;;
    _show_typing_indicator ;;
    CatMind.generate_response user_text On_handle_model_response.

(** The object before [__init__] has assigned anything; the main loop
    runs the constructor. *)
Definition blank : t :=
  {| model := NPUModel.__init__; npu_active := false;
     current_context := []; model_ready := false;
     typing_id := None; typing_anim := None; user_input := "";
     trace := []; timers := []; next_id := 0; threads := [];
     current := UI |}.

(** [__init__]: [_create_layout] disables the input
    ([_create_input_system]), [CatMind()] starts the loading thread, the
    first system message is shown and the status check starts. *)
Definition __init__ : M t unit :=
  _set_input_state false ;;
  CatMind._initialize_model_async ;;
  _show_system_message "Initializing NPU subsystem..." ;;
  _check_model_status.

End CatSeekGUI.

Import CatSeekGUI.

Definition init : t := exec __init__ blank.

(** What a timer runs when it fires. *)
Definition run_callback (cb : callback) : M t unit :=
  match cb with
  | Cb_check_model_status => _check_model_status
  | Cb_hide_typing_indicator => _hide_typing_indicator
  | Cb_animate_typing count => _animate_typing count
  end.

(** The body of a thread: [load_model], or [run_inference], which calls
    the model and then the callback, in the thread it runs in. *)
Definition run_thread (d : NPUModel.draws) (r : nat) (th : thread) : M t unit :=
  match th with
  | Th_load_model =>
      modify (fun g => set_model (NPUModel.initialize_model (model g)) g)
  | Th_run_inference input_text on_done =>
      m <- gets model ;;
      response <- lift (NPUModel.generate_response m d input_text) ;;
      match on_done with
      | On_handle_model_response => _handle_model_response response r
      end
  end.

(** What happens to the running program. *)
Inductive event : Type :=
| Ev_type (text : string)                  (* the user edits the entry *)
| Ev_send (r : nat)                        (* Return, or the send button *)
| Ev_timer (id : nat)                      (* the main loop fires a timer *)
| Ev_thread (n : nat) (d : NPUModel.draws) (r : nat).
                                           (* the n-th thread runs *)

Fixpoint remove_nth {A} (n : nat) (l : list A) : list A :=
  match l, n with
  | [], _ => []
  | _ :: rest, 0 => rest
  | x :: rest, S n' => x :: remove_nth n' rest
  end.

(** One step; an exception raised by a callback or in a thread ends
    that callback or thread and the program goes on. *)
Definition step (ev : event) (g : t) : t :=
  match ev with
  | Ev_type text =>
      if input_enabled (trace g) then set_user_input text g else g
  | Ev_send r => exec (send_message r) (set_current UI g)
  | Ev_timer id =>
      match find (fun tm => (t_id tm =? id)%nat) (timers g) with
      | Some tm =>
          exec (run_callback (t_cb tm))
            (set_current UI
               (set_timers
                  (filter (fun tm => negb (t_id tm =? id)%nat) (timers g)) g))
      | None => g
      end
  | Ev_thread n d r =>
      match nth_error (threads g) n with
      | Some th =>
          exec (run_thread d r th)
            (set_current Worker (set_threads (remove_nth n (threads g)) g))
      | None => g
      end
  end.

(** The state after the events [evs], the first of the list first. *)
Definition run (evs : list event) (g : t) : t :=
  fold_left (fun g ev => step ev g) evs g.

(** The states the program can be in. *)
Definition reachable (g : t) : Prop := exists evs, g = run evs init.

End CatSEEK_test.

(* ================================================================== *)
(** ** The vocabulary of the properties *)

Module R1 := CatSEEKR1.CatSeekGUI.
Module NPU := CatSEEK_test.
Module GUI := CatSEEK_test.CatSeekGUI.

Module StrategySpec.
Import PyStr Py.
Import CatSEEK_test.NPUModel.

(** The text contains a greeting keyword, case-insensitively: its
    lower-case form has one of the keywords as a substring. *)
Definition contains_greeting (text : string) : Prop :=
  exists k pre post,
    In k ["hi"; "hello"; "hey"] /\ lower text = pre ++ k ++ post.

(** The pool of a category in a table of responses. *)
Definition pool (table : list (string * list string)) (cat : string)
  : list string :=
  match getitem table cat with
  | Ok l => l
  | Raise _ => []
  end.

(** The fixed set of the four metrics, in the words of the
    documentation: the core temperature in degrees, the load of the NPU
    in per cent, the memory usage in GB and the inference time in
    seconds with one decimal, 0.1 to 0.9, of which [tenths] is the
    decimal.  The degree sign is the code point 176. *)
Definition metrics (temp load mem tenths : nat) : list string :=
  [ "core temp: " ++ str_of_nat temp ++ String "176" "C";
    "NPU load: " ++ str_of_nat load ++ "%";
    "memory usage: " ++ str_of_nat mem ++ "GB";
    "inference time: 0." ++ str_of_nat tenths ++ "s" ].

(** The documented shape of a response: a template of the category's
    pool, then [" [System: x | y]"] with [x] and [y] two different ones
    of the four metrics, whose values lie in the ranges 30..45, 10..95,
    1..8 and 0.1..0.9. *)
Definition system_shape (text : string) (resp : outcome string) : Prop :=
  exists template temp load mem tenths i j,
    In template (pool response_patterns (category text))
    /\ (30 <= temp <= 45 /\ 10 <= load <= 95
        /\ 1 <= mem <= 8 /\ 1 <= tenths <= 9)
    /\ i < 4 /\ j < 4 /\ i <> j
    /\ nth i (metrics temp load mem tenths) ""
       <> nth j (metrics temp load mem tenths) ""
    /\ resp
       = Ok (template ++ " [System: "
               ++ nth i (metrics temp load mem tenths) ""
               ++ " | " ++ nth j (metrics temp load mem tenths) "" ++ "]").

End StrategySpec.

Module GateSpec.
Import PyStr Py Tk.
Import CatSEEK_test CatSEEK_test.CatSeekGUI.
Local Open Scope py_scope.
Local Open Scope list_scope.

(** The three calls of the readiness transition. *)
Definition is_enable (c : call) : bool :=
  match c with
  | EntryConfig NORMAL => true
  | _ => false
  end.

Definition is_ready_message (c : call) : bool :=
  match c with
  | TextInsert _ chars tag =>
      String.eqb chars (String "010" "[SYSTEM]: NPU subsystem ready")
      && String.eqb tag "SYSTEM"
  | _ => false
  end.

Definition is_ready_status (c : call) : bool :=
  match c with
  | StatusConfig text => String.eqb text "NPU Status: Active | Load: 0%"
  | _ => false
  end.

(** How many calls of [tr] satisfy [p]. *)
Definition count (p : call -> bool) (tr : Tk.trace) : nat :=
  length (filter (fun e => p (snd e)) tr).

(** A call that is no part of the readiness transition and leaves the
    entry's state alone. *)
Definition neutral (e : context * call) : bool :=
  match snd e with
  | EntryConfig _ => false
  | c => negb (is_ready_message c) && negb (is_ready_status c)
  end.

Definition b2n (b : bool) : nat := if b then 1 else 0.

(** The readiness transition has happened exactly when [model_ready] is
    set, and then once; the entry is enabled exactly then. *)
Record gate_inv (g : t) : Prop := {
  inv_enable : count is_enable (trace g) = b2n (model_ready g);
  inv_message : count is_ready_message (trace g) = b2n (model_ready g);
  inv_status : count is_ready_status (trace g) = b2n (model_ready g);
  inv_input : input_enabled (trace g) = model_ready g
}.

(** A method that keeps [model_ready] and adds only neutral calls. *)
Definition stable {A} (m : M t A) : Prop :=
  forall g,
    model_ready (snd (m g)) = model_ready g
    /\ exists l, trace (snd (m g)) = l ++ trace g /\ forallb neutral l = true.

End GateSpec.

Module TurnSpec.
Import PyStr Py Tk.
Local Open Scope py_scope.
Local Open Scope list_scope.

(** The lines of the transcript that carry the tag [tag]. *)
Definition lines (tag : string) (tr : Tk.trace) : list (string * string) :=
  filter (fun e => String.eqb (fst e) tag) (inserts tr).

(** A turn is pending, in the words of the documentation: a user message
    has been appended to the transcript and its response has not been
    appended yet.  In the backend variant there are then more [USER]
    lines than [NPU] lines. *)
Definition awaiting_npu (g : NPU.t) : bool :=
  (length (lines "NPU" (NPU.trace g))
   <? length (lines "USER" (NPU.trace g)))%nat.

(** In the simple variant the greeting of [__init__] is a bot line of
    its own; a turn is pending when there are no more bot lines than
    user lines. *)
Definition awaiting_r1 (g : R1.t) : bool :=
  (length (lines "bot" (R1.trace g))
   <=? length (lines "user" (R1.trace g)))%nat.

(** A state of the backend variant in which a turn is pending: the
    loading thread has run, the status check has fired, the user has
    typed "a" and sent it, and has typed "b" since. *)
Definition pending_npu : NPU.t :=
  NPU.run [NPU.Ev_thread 0 (NPU.NPUModel.Build_draws 0 0 0 0 0 0 0) 0;
           NPU.Ev_timer 0; NPU.Ev_type "a"; NPU.Ev_send 0; NPU.Ev_type "b"]
    NPU.init.

(** A state of the simple variant in which a turn is pending: the user
    has typed "a" and sent it, and has typed "b" since. *)
Definition pending_r1 : R1.t :=
  R1.with_input "b" (exec R1.send_message (R1.with_input "a" R1.init)).

(** [send_message] has accepted the submission in the backend variant:
    the user's message is appended to the transcript and the text to the
    context list. *)
Definition accepted_npu (r : nat) (g : NPU.t) : Prop :=
  let text := strip (NPU.user_input g) in
  let g' := exec (GUI.send_message r) g in
  inserts (NPU.trace g')
  = inserts (NPU.trace g)
    ++ [("USER", String "010" "[USER]: " ++ text)]%string
  /\ NPU.current_context g' = NPU.current_context g ++ [text].

(** [send_message] has accepted the submission in the simple variant:
    the user's message is appended to the transcript. *)
Definition accepted_r1 (g : R1.t) : Prop :=
  let text := strip (R1.user_input g) in
  let g' := exec R1.send_message g in
  inserts (R1.trace g')
  = inserts (R1.trace g)
    ++ [("user", String "010" text ++ String "010" "")]%string.

(** A state of the backend variant in which a generate call is under
    way: the model is ready and
    [mind.generate_response("a", self._handle_model_response)], the call
    of [send_message], has started its thread. *)
Definition generating_npu : NPU.t :=
  exec (NPU.CatMind.generate_response "a" NPU.On_handle_model_response)
    (NPU.run [NPU.Ev_thread 0 (NPU.NPUModel.Build_draws 0 0 0 0 0 0 0) 0;
              NPU.Ev_timer 0] NPU.init).

(** The widget calls [_handle_model_response] makes itself, newest
    first, when it runs in context [c] with [n] items in the context
    list after the append. *)
Definition completion_calls (c : context) (response : string) (n r : nat)
  : Tk.trace :=
  [ (c, StatusConfig ("NPU Status: Active | Load: "
                      ++ str_of_nat (randint r 5 95) ++ "%")%string);
    (c, ContextConfig ("Context: " ++ str_of_nat n ++ " items")%string);
    (c, TextSee END);
    (c, TextConfigure DISABLED);
    (c, TextInsert END (String "010" "[NPU]: " ++ response)%string "NPU");
    (c, TextConfigure NORMAL) ].

(** The inference thread [n], run with the draws [d] and [r], makes the
    widget calls of the completion in the worker context, appends the
    response to the context list, and leaves only the hiding of the
    typing indicator to the main loop. *)
Definition completes_on_worker
    (g : NPU.t) (n : nat) (d : NPU.NPUModel.draws) (r : nat) (text : string)
  : Prop :=
  exists response,
    NPU.NPUModel.generate_response (NPU.model g) d text = Ok response
    /\ let g' := NPU.step (NPU.Ev_thread n d r) g in
       NPU.trace g'
       = completion_calls Worker response
           (length (NPU.current_context g ++ [response])) r
         ++ NPU.trace g
       /\ NPU.current_context g' = NPU.current_context g ++ [response]
       /\ NPU.timers g'
          = NPU.timers g
            ++ [ {| NPU.t_id := NPU.next_id g; NPU.t_ms := 0;
                    NPU.t_cb := NPU.Cb_hide_typing_indicator |} ].

End TurnSpec.

(* ================================================================== *)
(** ** Facts about the string operations *)

Module PyStrFacts.
Import PyStr.

Lemma prefix_app (a s : string) :
  prefix a s = true <-> exists post, s = a ++ post.
Proof.
  revert s. induction a as [|c a IH]; intros s; simpl.
  - split; [intros _; exists s; reflexivity | destruct s; reflexivity].
  - destruct s as [|d s]; simpl.
    + split; [discriminate | intros [post H]; discriminate].
    + destruct (ascii_dec c d) as [->|Hne].
      * rewrite IH. split; intros [post H]; exists post.
        -- now rewrite H.
        -- now inversion H.
      * split; [discriminate | intros [post H]; congruence].
Qed.

Lemma contains_spec (sub s : string) :
  contains sub s = true <-> exists pre post, s = pre ++ sub ++ post.
Proof.
  induction s as [|c s IH]; cbn [contains].
  - rewrite prefix_app. split.
    + intros [post H]. exists "", post. exact H.
    + intros [pre [post H]]. destruct pre; simpl in H.
      * exists post. exact H.
      * discriminate.
  - rewrite orb_true_iff, IH, prefix_app. split.
    + intros [[post H] | [pre [post H]]].
      * exists "", post. exact H.
      * exists (String c pre), post. simpl. now rewrite H.
    + intros [pre [post H]]. destruct pre as [|d pre]; simpl in H.
      * left. exists post. exact H.
      * right. inversion H. exists pre, post. reflexivity.
Qed.

Lemma lstrip_all_space (s : string) :
  all_space s = true -> lstrip s = "".
Proof.
  induction s as [|c s IH]; simpl; [reflexivity|].
  intros H. apply andb_true_iff in H as [Hc Hs].
  rewrite Hc. now apply IH.
Qed.

Lemma strip_all_space (s : string) :
  all_space s = true -> strip s = "".
Proof.
  intros H. unfold strip. now rewrite lstrip_all_space.
Qed.

Lemma rstrip_empty (s : string) :
  rstrip s = "" -> all_space s = true.
Proof.
  induction s as [|c s IH]; simpl; [reflexivity|].
  destruct (rstrip s) eqn:E; [|discriminate].
  destruct (isspace c) eqn:Hc; [|discriminate].
  intros _. simpl. now apply IH.
Qed.

Lemma lstrip_not_space (s : string) :
  match lstrip s with
  | EmptyString => all_space s = true
  | String c _ => isspace c = false
  end.
Proof.
  induction s as [|c s IH]; simpl; [reflexivity|].
  destruct (isspace c) eqn:Hc; simpl.
  - destruct (lstrip s); [exact IH | exact IH].
  - exact Hc.
Qed.

(** [strip] returns the empty string exactly on the strings made of
    white space only. *)
Lemma strip_empty_iff (s : string) :
  strip s = "" <-> all_space s = true.
Proof.
  split; [|apply strip_all_space].
  unfold strip. intros H. apply rstrip_empty in H.
  pose proof (lstrip_not_space s) as L.
  destruct (lstrip s) as [|c r]; [exact L|].
  simpl in H. rewrite L in H. discriminate.
Qed.

End PyStrFacts.

(* ================================================================== *)
(** ** ResponseStrategy: classification and template selection *)

Module ResponseStrategy.
Import PyStr Py PyStrFacts StrategySpec.

Lemma any_in_spec (keys : list string) (s : string) :
  any_in keys s = true <->
  exists k pre post, In k keys /\ s = pre ++ k ++ post.
Proof.
  unfold any_in. rewrite existsb_exists. split.
  - intros [k [Hin Hc]]. apply contains_spec in Hc as [pre [post E]].
    now exists k, pre, post.
  - intros [k [pre [post [Hin E]]]]. exists k. split; [exact Hin|].
    apply contains_spec. now exists pre, post.
Qed.

Lemma contains_greeting_simple (text : string) :
  contains_greeting text <->
  any_in CatSEEKR1.CatMind.greets (lower text) = true.
Proof. unfold contains_greeting. now rewrite any_in_spec. Qed.

Lemma contains_greeting_npu (text : string) :
  contains_greeting text <->
  any_in CatSEEK_test.NPUModel.greets (lower text) = true.
Proof. unfold contains_greeting. now rewrite any_in_spec. Qed.

Lemma choice_in (r : nat) (l : list string) :
  l <> [] -> exists x, choice r l = Ok x /\ In x l.
Proof.
  intros Hne. destruct l as [|a l]; [contradiction|].
  exists (nth (r mod length (a :: l)) (a :: l) ""). split; [reflexivity|].
  apply nth_In. apply Nat.mod_upper_bound. discriminate.
Qed.

(** The simple variant's category is one of its three keys. *)
Lemma simple_category_cases (text : string) :
  CatSEEKR1.CatMind.category text = "question"
  \/ CatSEEKR1.CatMind.category text = "hello"
  \/ CatSEEKR1.CatMind.category text = "default".
Proof.
  unfold CatSEEKR1.CatMind.category.
  destruct (contains "?" text); [now left|].
  destruct (any_in _ _); [right; now left | right; now right].
Qed.

(** The backend variant's category is one of its three keys. *)
Lemma npu_category_cases (text : string) :
  CatSEEK_test.NPUModel.category text = "greeting"
  \/ CatSEEK_test.NPUModel.category text = "question"
  \/ CatSEEK_test.NPUModel.category text = "technical".
Proof.
  unfold CatSEEK_test.NPUModel.category.
  destruct (any_in _ _); [now left|].
  destruct (contains "?" text); [right; now left | right; now right].
Qed.

(** The simple variant always answers with a template of the category's
    pool. *)
Lemma simple_generate_response_in_pool (r : nat) (text : string) :
  exists resp,
    CatSEEKR1.CatMind.generate_response r text = Ok resp
    /\ In resp (pool CatSEEKR1.CatMind.responses
                     (CatSEEKR1.CatMind.category text)).
Proof.
  unfold CatSEEKR1.CatMind.generate_response, pool.
  destruct (simple_category_cases text) as [E | [E | E]]; rewrite E;
    cbn [getitem CatSEEKR1.CatMind.responses String.eqb Ascii.eqb Bool.eqb];
    apply choice_in; discriminate.
Qed.

(** Two selections out of four candidates are two different positions. *)
Lemma sample_two_of_four (p0 p1 : nat) (a b c e : string) :
  exists i j,
    i < 4 /\ j < 4 /\ i <> j
    /\ sample [p0; p1] [a; b; c; e]
       = [nth i [a; b; c; e] ""; nth j [a; b; c; e] ""].
Proof.
  unfold sample. cbn [sample_loop length].
  change (4 - 1) with 3. change (3 - 1) with 2.
  pose proof (Nat.mod_upper_bound p0 4 ltac:(discriminate)) as H0.
  pose proof (Nat.mod_upper_bound p1 3 ltac:(discriminate)) as H1.
  set (j0 := p0 mod 4) in *. set (j1 := p1 mod 3) in *.
  clearbody j0 j1.
  destruct j0 as [|[|[|[|?]]]]; try lia;
    destruct j1 as [|[|[|?]]]; try lia; cbn [nth setitem];
    first [ exists 0, 1; repeat split; (lia || reflexivity)
          | exists 0, 2; repeat split; (lia || reflexivity)
          | exists 0, 3; repeat split; (lia || reflexivity)
          | exists 1, 0; repeat split; (lia || reflexivity)
          | exists 1, 2; repeat split; (lia || reflexivity)
          | exists 1, 3; repeat split; (lia || reflexivity)
          | exists 2, 0; repeat split; (lia || reflexivity)
          | exists 2, 1; repeat split; (lia || reflexivity)
          | exists 2, 3; repeat split; (lia || reflexivity)
          | exists 3, 0; repeat split; (lia || reflexivity)
          | exists 3, 1; repeat split; (lia || reflexivity)
          | exists 3, 2; repeat split; (lia || reflexivity) ].
Qed.

End ResponseStrategy.

(* ================================================================== *)
(** ** Claims about the response strategy and the backend *)

Module Strategy.
Import PyStr Py PyStrFacts StrategySpec ResponseStrategy.
Import CatSEEK_test.NPUModel.

Lemma append_assoc (a b c : string) : (a ++ b) ++ c = a ++ b ++ c.
Proof. induction a as [|x a IH]; simpl; [reflexivity | now rewrite IH]. Qed.

(** C1, as stated, fails: in the simple variant the test for the
    question mark comes first, so ["hi?"], which contains the keyword
    ["hi"], is classified as a question and not as a greeting. *)
Lemma greeting_loses_to_question_mark_in_simple_variant :
  ~ (forall text,
       contains_greeting text ->
       CatSEEKR1.CatMind.category text = "hello"
       /\ category text = "greeting").
Proof.
  intros H. destruct (H "hi?") as [E _].
  - exists "hi", "", "?". split; [simpl; auto | reflexivity].
  - discriminate E.
Qed.

(** C1, amended: for every text containing a greeting keyword
    (case-insensitive substring), the backend variant
    [NPUModel.generate_response] yields the greeting category whether or
    not the text contains a question mark, and answers from the greeting
    pool; the simple variant [CatMind.generate_response] tests the
    question mark first, so it yields the question category when the
    text contains a question mark and the greeting category otherwise. *)
Theorem greeting_precedence (text : string) :
  contains_greeting text ->
  category text = "greeting"
  /\ (forall d, exists template,
        In template (pool response_patterns "greeting")
        /\ generate_response {| initialized := true |} d text
           = Ok (template ++ " " ++ _generate_technical_response d))
  /\ CatSEEKR1.CatMind.category text
     = (if contains "?" text then "question" else "hello").
Proof.
  intros Hg.
  assert (Hc : category text = "greeting").
  { unfold category. apply contains_greeting_npu in Hg. now rewrite Hg. }
  split; [exact Hc|]. split.
  - intros d. unfold generate_response. rewrite Hc.
    cbn [initialized negb getitem response_patterns String.eqb Ascii.eqb
         Bool.eqb].
    destruct (choice_in (r_choice d)
                ["Purr... Welcome to CATSEEK R1!"; "Meow! How can I help?";
                 "*head bump* Hello!"]) as [x [E Hin]]; [discriminate|].
    exists x. rewrite E. split; [exact Hin | reflexivity].
  - unfold CatSEEKR1.CatMind.category.
    destruct (contains "?" text); [reflexivity|].
    apply contains_greeting_simple in Hg. now rewrite Hg.
Qed.

Lemma greeting_precedence_witness :
  contains_greeting "Hey, you?"
  /\ category "Hey, you?" = "greeting"
  /\ CatSEEKR1.CatMind.category "Hey, you?"
     = (if contains "?" "Hey, you?" then "question" else "hello").
Proof.
  assert (H : contains_greeting "Hey, you?").
  { exists "hey", "", ", you?". split; [simpl; auto | reflexivity]. }
  split; [exact H|].
  destruct (greeting_precedence "Hey, you?" H) as [A [_ B]].
  split; [exact A | exact B].
Defined.

(** C10: greeting detection is a raw substring test on the lower-cased
    input: whenever the lower-case form of the text is [pre ++ k ++ post]
    for a keyword [k] among hi, hello, hey, the backend variant
    classifies the text as a greeting unconditionally and the simple
    variant does whenever the text contains no question mark; so "this",
    "think" and "they" are greetings in both variants. *)
Theorem greeting_is_raw_substring (text k pre post : string) :
  In k ["hi"; "hello"; "hey"] ->
  lower text = pre ++ k ++ post ->
  category text = "greeting"
  /\ (contains "?" text = false -> CatSEEKR1.CatMind.category text = "hello")
  /\ map category ["this"; "think"; "they"]
     = ["greeting"; "greeting"; "greeting"]
  /\ map CatSEEKR1.CatMind.category ["this"; "think"; "they"]
     = ["hello"; "hello"; "hello"].
Proof.
  intros Hin E.
  assert (Hg : contains_greeting text) by (now exists k, pre, post).
  split; [|split; [|split; reflexivity]].
  - unfold category. apply contains_greeting_npu in Hg. now rewrite Hg.
  - intros Hq. unfold CatSEEKR1.CatMind.category. rewrite Hq.
    apply contains_greeting_simple in Hg. now rewrite Hg.
Qed.

Lemma greeting_is_raw_substring_witness :
  category "Nothing to see" = "greeting"
  /\ CatSEEKR1.CatMind.category "Nothing to see" = "hello".
Proof.
  destruct (greeting_is_raw_substring "Nothing to see" "hi" "not" "ng to see")
    as [A [B _]].
  - simpl; auto.
  - reflexivity.
  - split; [exact A | apply B; reflexivity].
Defined.

(** C6: when the model is not initialized, [generate_response] returns
    the string "Error: Model not loaded" for every input and raises
    nothing. *)
Theorem not_loaded_sentinel (m : t) (d : draws) (text : string) :
  initialized m = false ->
  generate_response m d text = Ok "Error: Model not loaded".
Proof.
  intros H. unfold generate_response. now rewrite H.
Qed.

Lemma not_loaded_sentinel_witness :
  generate_response __init__ (Build_draws 0 0 0 0 0 0 0) "hello"
  = Ok "Error: Model not loaded".
Proof.
  apply (not_loaded_sentinel __init__ (Build_draws 0 0 0 0 0 0 0) "hello").
  reflexivity.
Defined.

(** [generate_response] returns a string in every state of the model. *)
Lemma generate_response_returns (m : t) (d : draws) (text : string) :
  exists resp, generate_response m d text = Ok resp.
Proof.
  unfold generate_response. destruct (initialized m); cbn [negb].
  - destruct (npu_category_cases text) as [E | [E | E]]; rewrite E;
      cbn [getitem response_patterns String.eqb Ascii.eqb Bool.eqb];
      match goal with
      | |- context [choice ?r ?l] =>
          destruct (choice_in r l) as [x [Ex _]]; [discriminate|];
          rewrite Ex; eexists; reflexivity
      end.
  - eexists; reflexivity.
Qed.

(** The four metrics are four different strings, whatever the draws. *)
Lemma components_distinct (d : draws) : NoDup (components d).
Proof.
  unfold components.
  repeat constructor; cbn [In append]; intros H;
    repeat (destruct H as [H | H]; [discriminate H|]); exact H.
Qed.

(** A loaded model answers in the documented shape. *)
Lemma loaded_model_answers_in_shape (m : t) (d : draws) (text : string) :
  initialized m = true ->
  system_shape text (generate_response m d text).
Proof.
  intros Hi. unfold system_shape, generate_response, pool.
  rewrite Hi. cbn [negb].
  assert (Hp : exists template,
             In template
               (match getitem response_patterns (category text) with
                | Ok l => l | Raise _ => [] end)
             /\ (let? pl := getitem response_patterns (category text) in
                 choice (r_choice d) pl)%py = Ok template).
  { destruct (npu_category_cases text) as [E | [E | E]]; rewrite E;
      cbn [getitem response_patterns String.eqb Ascii.eqb Bool.eqb];
      match goal with
      | |- context [choice ?r ?l] =>
          destruct (choice_in r l) as [x [Ex Hin]]; [discriminate|];
          exists x; split; [exact Hin | exact Ex]
      end. }
  destruct Hp as [template [Hin Ht]].
  pose proof (components_distinct d) as Hnd.
  unfold _generate_technical_response.
  assert (Ec : components d
               = metrics (randint (r_temp d) 30 45) (randint (r_load d) 10 95)
                   (randint (r_mem d) 1 8) (randint (r_time d) 1 9))
    by reflexivity.
  rewrite Ec in Hnd |- *.
  remember (metrics (randint (r_temp d) 30 45) (randint (r_load d) 10 95)
              (randint (r_mem d) 1 8) (randint (r_time d) 1 9))
    as comps eqn:Em.
  assert (Hlen : length comps = 4) by (subst comps; reflexivity).
  destruct comps as [|a [|b [|c [|e [|? ?]]]]]; try discriminate Hlen.
  destruct (sample_two_of_four (r_pick0 d) (r_pick1 d) a b c e)
    as [i [j [Hi4 [Hj4 [Hij Hs]]]]].
  exists template, (randint (r_temp d) 30 45), (randint (r_load d) 10 95),
    (randint (r_mem d) 1 8), (randint (r_time d) 1 9), i, j.
  rewrite <- Em.
  split; [exact Hin|].
  split.
  { pose proof (Nat.mod_upper_bound (r_temp d) (45 - 30 + 1) ltac:(discriminate)).
    pose proof (Nat.mod_upper_bound (r_load d) (95 - 10 + 1) ltac:(discriminate)).
    pose proof (Nat.mod_upper_bound (r_mem d) (8 - 1 + 1) ltac:(discriminate)).
    pose proof (Nat.mod_upper_bound (r_time d) (9 - 1 + 1) ltac:(discriminate)).
    unfold randint. cbn [Nat.sub Nat.add] in *. lia. }
  repeat split; try assumption.
  - intros Heq. apply Hij.
    apply (proj1 (NoDup_nth [a; b; c; e] "") Hnd); simpl; assumption.
  - destruct (getitem response_patterns (category text)) as [pl|];
      [|discriminate Ht].
    rewrite Ht, Hs. cbn [join]. rewrite append_assoc. reflexivity.
Qed.

(** C9: when the model is ready, every response is the chosen template
    of the category's pool followed by [" [System: x | y]"], where [x]
    and [y] are two different metrics, sampled without replacement from
    the set of the four: the core temperature ("core temp: 30" to "45",
    with the degree sign and C), the load ("NPU load: 10%" to "95%"),
    the memory ("memory usage: 1GB" to "8GB") and the latency
    ("inference time: 0.1s" to "0.9s"), and joined by [" | "]. *)
Theorem ready_response_shape (m : t) (d : draws) (text : string) :
  initialized m = true ->
  length (components d) = 4
  /\ (exists temp load mem tenths,
        (30 <= temp <= 45 /\ 10 <= load <= 95
         /\ 1 <= mem <= 8 /\ 1 <= tenths <= 9)
        /\ components d = metrics temp load mem tenths)
  /\ system_shape text (generate_response m d text).
Proof.
  intros Hi. split; [reflexivity|]. split.
  - exists (randint (r_temp d) 30 45), (randint (r_load d) 10 95),
      (randint (r_mem d) 1 8), (randint (r_time d) 1 9).
    split; [|reflexivity].
    pose proof (Nat.mod_upper_bound (r_temp d) (45 - 30 + 1) ltac:(discriminate)).
    pose proof (Nat.mod_upper_bound (r_load d) (95 - 10 + 1) ltac:(discriminate)).
    pose proof (Nat.mod_upper_bound (r_mem d) (8 - 1 + 1) ltac:(discriminate)).
    pose proof (Nat.mod_upper_bound (r_time d) (9 - 1 + 1) ltac:(discriminate)).
    unfold randint. cbn [Nat.sub Nat.add] in *. lia.
  - now apply loaded_model_answers_in_shape.
Qed.

Lemma ready_response_shape_witness :
  let d := Build_draws 1 2 3 4 5 3 2 in
  components d = metrics 32 13 5 6
  /\ generate_response {| initialized := true |} d "what?"
     = Ok ("Paws-itive analysis suggests: "
             ++ "[System: inference time: 0.6s | memory usage: 5GB]")
  /\ system_shape "what?"
       (generate_response {| initialized := true |} d "what?").
Proof.
  intros d. split; [reflexivity|]. split; [reflexivity|].
  apply (ready_response_shape {| initialized := true |} d "what?").
  reflexivity.
Defined.

End Strategy.

(* ================================================================== *)
(** ** What the status check and the other methods do to the widgets *)

Module Effects.
Import PyStr Py Tk PyStrFacts GateSpec.
Import CatSEEK_test CatSEEK_test.CatSeekGUI.
Local Open Scope py_scope.
Local Open Scope list_scope.

Lemma stable_ret {A} (a : A) : stable (ret a).
Proof. intros g. split; [reflexivity|]. now exists []. Qed.

Lemma stable_gets {A} (f : t -> A) : stable (gets f).
Proof. intros g. split; [reflexivity|]. now exists []. Qed.

Lemma stable_lift {A} (o : outcome A) : stable (lift o).
Proof. intros g. split; [reflexivity|]. now exists []. Qed.

Lemma stable_getattr {A} (name : string) (f : t -> option A) :
  stable (getattr name f).
Proof.
  intros g. unfold getattr. destruct (f g); (split; [reflexivity|]); now exists [].
Qed.

Lemma stable_bind {A B} (m : M t A) (k : A -> M t B) :
  stable m -> (forall a, stable (k a)) -> stable (bind m k).
Proof.
  intros Hm Hk g. unfold bind.
  destruct (Hm g) as [R1 [l1 [T1 N1]]].
  destruct (m g) as [[a|e] g1]; cbn [snd] in *.
  - destruct (Hk a g1) as [R2 [l2 [T2 N2]]].
    split; [congruence|].
    exists (l2 ++ l1). split.
    + rewrite T2, T1. now rewrite app_assoc.
    + rewrite forallb_app. now rewrite N1, N2.
  - split; [exact R1|]. now exists l1.
Qed.

Lemma stable_tk (c : call) :
  (forall cu, neutral (cu, c) = true) -> stable (tk c).
Proof.
  intros Hn g. destruct g. cbn. split; [reflexivity|].
  eexists [_]. split; [reflexivity|]. cbn [forallb]. now rewrite Hn.
Qed.

Lemma stable_modify (f : t -> t) :
  (forall g, model_ready (f g) = model_ready g /\ trace (f g) = trace g) ->
  stable (modify f).
Proof.
  intros Hf g. cbn. destruct (Hf g) as [R T]. split; [exact R|].
  exists []. now rewrite T.
Qed.

Lemma stable_after (ms : nat) (cb : callback) : stable (after ms cb).
Proof. intros g. destruct g. cbn. split; [reflexivity|]. now exists []. Qed.

Lemma stable_after_cancel (id : nat) : stable (after_cancel id).
Proof. apply stable_modify. intros g. now destruct g. Qed.

Lemma stable_start_thread (th : thread) : stable (start_thread th).
Proof. apply stable_modify. intros g. now destruct g. Qed.

Lemma stable_context_append (x : string) : stable (context_append x).
Proof. apply stable_modify. intros g. now destruct g. Qed.

Lemma stable_set_typing_id (v : option pyvalue) :
  stable (modify (set_typing_id v)).
Proof. apply stable_modify. intros g. now destruct g. Qed.

Lemma stable_set_typing_anim (v : option nat) :
  stable (modify (set_typing_anim v)).
Proof. apply stable_modify. intros g. now destruct g. Qed.

Lemma stable_entry_delete : stable entry_delete.
Proof.
  apply stable_bind; [apply stable_tk; reflexivity|]. intros _.
  apply stable_modify. intros g.
  destruct (input_enabled (trace g)); now destruct g.
Qed.

Lemma str_of_nat_inj (a b : nat) : str_of_nat a = str_of_nat b -> a = b.
Proof.
  unfold str_of_nat. intros H.
  apply (f_equal NilEmpty.uint_of_string) in H.
  rewrite !NilEmpty.usu in H. injection H as H.
  apply (f_equal Nat.of_uint) in H.
  now rewrite !DecimalNat.Unsigned.of_to in H.
Qed.

Lemma str_of_nat_nonempty (n : nat) : str_of_nat n <> ""%string.
Proof.
  unfold str_of_nat. intros H. pose proof H as H'.
  apply (f_equal NilEmpty.uint_of_string) in H.
  rewrite NilEmpty.usu in H. cbn in H. injection H as H.
  apply (f_equal Nat.of_uint) in H.
  rewrite DecimalNat.Unsigned.of_to in H. cbn in H. subst n.
  discriminate H'.
Qed.

(** The status text of [_update_context_display] never reads 0%. *)
Lemma load_status_not_zero (r : nat) :
  is_ready_status
    (StatusConfig ("NPU Status: Active | Load: "
                   ++ str_of_nat (randint r 5 95) ++ "%")%string) = false.
Proof.
  cbn [is_ready_status]. apply String.eqb_neq. intros H.
  cbn [append] in H.
  repeat match type of H with
         | String _ _ = String _ _ => injection H as H
         end.
  assert (Hn : randint r 5 95 <> 0) by (unfold randint; lia).
  remember (str_of_nat (randint r 5 95)) as s eqn:Es.
  destruct s as [|c s]; [symmetry in Es; now apply str_of_nat_nonempty in Es|].
  cbn [append] in H. injection H as Hc Hs.
  destruct s as [|c' s]; [|cbn [append] in Hs; injection Hs as _ Hs;
                           destruct s; discriminate Hs].
  subst c. apply Hn. apply str_of_nat_inj. now rewrite <- Es.
Qed.

Ltac stable_step :=
  first
    [ apply stable_ret | apply stable_gets | apply stable_lift
    | apply stable_getattr | apply stable_after | apply stable_after_cancel
    | apply stable_start_thread | apply stable_context_append
    | apply stable_set_typing_id | apply stable_set_typing_anim
    | apply stable_entry_delete
    | apply stable_tk; intros; reflexivity
    | apply stable_bind; [|intros] ].

Lemma stable_show_message (text sender : string) :
  sender <> "SYSTEM"%string -> stable (_show_message text sender).
Proof.
  intros Hs. unfold _show_message.
  apply stable_bind; [stable_step|intros _].
  apply stable_bind; [|intros _; repeat stable_step].
  apply stable_tk. intros cu. unfold neutral. cbn [snd is_ready_message is_ready_status].
  apply String.eqb_neq in Hs. rewrite Hs. now rewrite andb_false_r.
Qed.

Lemma stable_update_context_display (r : nat) :
  stable (_update_context_display r).
Proof.
  unfold _update_context_display.
  apply stable_bind; [stable_step|intros ctx].
  apply stable_bind; [stable_step|intros _].
  apply stable_tk. intros cu. unfold neutral. cbn [snd is_ready_message].
  now rewrite load_status_not_zero.
Qed.

Lemma stable_text_delete (i1 : index) (i2 : option index) :
  stable (text_delete i1 i2).
Proof.
  unfold text_delete. apply stable_bind; [stable_step|intros st].
  destruct (delete_reply st i1 i2); stable_step.
Qed.

Lemma stable_text_insert (i : index) (chars tag : string) :
  tag <> "SYSTEM"%string -> stable (text_insert i chars tag).
Proof.
  intros Hs. unfold text_insert. apply stable_bind; [stable_step|intros st].
  assert (H : stable (tk (TextInsert i chars tag) ;; ret PyNone)).
  { apply stable_bind; [|intros _; stable_step].
    apply stable_tk. intros cu. unfold neutral.
    cbn [snd is_ready_message is_ready_status].
    apply String.eqb_neq in Hs. rewrite Hs. now rewrite andb_false_r. }
  destruct (insert_reply st i); [exact H | exact H | stable_step].
Qed.

Lemma stable_animate_typing (count : nat) : stable (_animate_typing count).
Proof.
  unfold _animate_typing.
  apply stable_bind; [stable_step|intros tid].
  apply stable_bind; [apply stable_text_delete|intros _].
  apply stable_bind; [apply stable_text_insert; discriminate|intros _].
  repeat stable_step.
Qed.

Lemma stable_show_typing_indicator : stable _show_typing_indicator.
Proof.
  unfold _show_typing_indicator.
  apply stable_bind; [apply stable_text_insert; discriminate|intros v].
  apply stable_bind; [stable_step|intros _].
  apply stable_animate_typing.
Qed.

Lemma stable_hide_typing_indicator : stable _hide_typing_indicator.
Proof.
  unfold _hide_typing_indicator.
  apply stable_bind; [stable_step|intros ta].
  apply stable_bind; [destruct ta; stable_step|intros _].
  apply stable_bind; [stable_step|intros tid].
  apply stable_text_delete.
Qed.

Lemma stable_handle_model_response (response : string) (r : nat) :
  stable (_handle_model_response response r).
Proof.
  unfold _handle_model_response.
  apply stable_bind; [stable_step|intros _].
  apply stable_bind; [apply stable_show_message; discriminate|intros _].
  apply stable_bind; [stable_step|intros _].
  apply stable_update_context_display.
Qed.

Lemma stable_send_message (r : nat) : stable (send_message r).
Proof.
  unfold send_message.
  apply stable_bind; [stable_step|intros raw].
  apply stable_bind; [stable_step|intros ready].
  destruct (negb (truthy (strip raw)) || negb ready); [stable_step|].
  apply stable_bind; [apply stable_show_message; discriminate|intros _].
  apply stable_bind; [stable_step|intros _].
  apply stable_bind; [stable_step|intros _].
  apply stable_bind; [apply stable_update_context_display|intros _].
  apply stable_bind; [apply stable_show_typing_indicator|intros _].
  unfold CatMind.generate_response. stable_step.
Qed.

Lemma stable_run_thread (d : NPUModel.draws) (r : nat) (th : thread) :
  stable (run_thread d r th).
Proof.
  destruct th as [|text on_done]; cbn [run_thread].
  - apply stable_modify. intros g. now destruct g.
  - apply stable_bind; [stable_step|intros m].
    apply stable_bind; [stable_step|intros response].
    destruct on_done. apply stable_handle_model_response.
Qed.

(** A stable method keeps the invariant of the gate. *)
Lemma stable_gate_inv {A} (m : M t A) (g : t) :
  stable m -> gate_inv g -> gate_inv (exec m g).
Proof.
  intros Hm [I1 I2 I3 I4]. unfold exec.
  destruct (Hm g) as [R [l [T N]]].
  assert (Hc : forall p, (forall e, neutral e = true -> p (snd e) = false) ->
                         count p (l ++ trace g) = count p (trace g)).
  { intros p Hp. unfold count. rewrite filter_app, length_app.
    replace (filter (fun e => p (snd e)) l) with (@nil (context * call));
      [reflexivity|].
    clear T. induction l as [|e l IH]; [reflexivity|].
    cbn [forallb] in N. apply andb_true_iff in N as [Ne Nl].
    cbn [filter]. rewrite (Hp e Ne). now apply IH. }
  assert (He : input_enabled (l ++ trace g) = input_enabled (trace g)).
  { unfold input_enabled. f_equal. clear T Hc.
    induction l as [|e l IH]; [reflexivity|].
    cbn [forallb] in N. apply andb_true_iff in N as [Ne Nl].
    destruct e as [cu c]. unfold neutral in Ne. cbn [snd] in Ne.
    destruct c; try discriminate Ne; cbn [Datatypes.app entry_state]; now apply IH. }
  constructor; rewrite T, R.
  - rewrite Hc; [exact I1|]. intros [cu c] Hn. unfold neutral in Hn.
    cbn [snd] in *. destruct c; try reflexivity. discriminate Hn.
  - rewrite Hc; [exact I2|]. intros [cu c] Hn. unfold neutral in Hn.
    cbn [snd] in *. destruct c; try reflexivity.
    apply andb_true_iff in Hn as [Hn _]. now apply negb_true_iff in Hn.
  - rewrite Hc; [exact I3|]. intros [cu c] Hn. unfold neutral in Hn.
    cbn [snd] in *. destruct c; try reflexivity.
    apply andb_true_iff in Hn as [_ Hn]. now apply negb_true_iff in Hn.
  - rewrite He. exact I4.
Qed.

End Effects.

(* ================================================================== *)
(** ** ReadinessGate: the periodic status check *)

Module ReadinessGate.
Import PyStr Py Tk PyStrFacts GateSpec Effects.
Import CatSEEK_test CatSEEK_test.CatSeekGUI.
Local Open Scope py_scope.
Local Open Scope list_scope.

(** What one status check does to [model_ready]. *)
Lemma check_model_status_ready (g : t) :
  model_ready (exec _check_model_status g)
  = model_ready g || NPUModel.initialized (model g).
Proof.
  destruct g as [[ini] a cc mr ti ta ui tr tm ni th cu].
  destruct ini, mr; reflexivity.
Qed.

(** The status check keeps the invariant of the gate. *)
Lemma check_model_status_inv (g : t) :
  gate_inv g -> gate_inv (exec _check_model_status g).
Proof.
  destruct g as [[ini] a cc mr ti ta ui tr tm ni th cu].
  intros [I1 I2 I3 I4]. cbn [trace model_ready] in *. unfold count in *.
  destruct ini, mr; constructor; cbn in *;
    try assumption; try (now rewrite ?I1, ?I2, ?I3); try reflexivity.
Qed.

Lemma set_current_inv (c : context) (g : t) :
  gate_inv g -> gate_inv (set_current c g).
Proof. destruct g. intros [I1 I2 I3 I4]. now constructor. Qed.

Lemma set_timers_inv (v : list timer) (g : t) :
  gate_inv g -> gate_inv (set_timers v g).
Proof. destruct g. intros [I1 I2 I3 I4]. now constructor. Qed.

Lemma set_threads_inv (v : list thread) (g : t) :
  gate_inv g -> gate_inv (set_threads v g).
Proof. destruct g. intros [I1 I2 I3 I4]. now constructor. Qed.

Lemma set_user_input_inv (v : string) (g : t) :
  gate_inv g -> gate_inv (set_user_input v g).
Proof. destruct g. intros [I1 I2 I3 I4]. now constructor. Qed.

Lemma init_inv : gate_inv init.
Proof. now constructor. Qed.

Lemma step_inv (ev : event) (g : t) : gate_inv g -> gate_inv (step ev g).
Proof.
  intros I. destruct ev as [text | r | id | n d r]; cbn [step].
  - destruct (input_enabled (trace g)); [now apply set_user_input_inv | exact I].
  - apply stable_gate_inv; [apply stable_send_message|].
    now apply set_current_inv.
  - destruct (find _ (timers g)) as [tm|]; [|exact I].
    assert (I' : gate_inv
                   (set_current UI
                      (set_timers
                         (filter (fun tm0 => negb (t_id tm0 =? id)%nat) (timers g))
                         g)))
      by (now apply set_current_inv, set_timers_inv).
    destruct (t_cb tm); cbn [run_callback].
    + now apply check_model_status_inv.
    + apply stable_gate_inv; [apply stable_hide_typing_indicator | exact I'].
    + apply stable_gate_inv; [apply stable_animate_typing | exact I'].
  - destruct (nth_error (threads g) n) as [th|]; [|exact I].
    apply stable_gate_inv; [apply stable_run_thread|].
    now apply set_current_inv, set_threads_inv.
Qed.

Lemma run_inv (evs : list event) (g : t) : gate_inv g -> gate_inv (run evs g).
Proof.
  revert g. induction evs as [|ev evs IH]; intros g I; [exact I|].
  cbn [run fold_left]. apply IH. now apply step_inv.
Qed.

Lemma reachable_inv (g : t) : reachable g -> gate_inv g.
Proof. intros [evs ->]. apply run_inv, init_inv. Qed.

(** [model_ready], once set, stays set. *)
Lemma step_ready_monotone (ev : event) (g : t) :
  model_ready g = true -> model_ready (step ev g) = true.
Proof.
  intros H.
  assert (S : forall A (m : M t A) g0,
             stable m -> model_ready g0 = true -> model_ready (exec m g0) = true).
  { intros A m g0 Hm H0. unfold exec. destruct (Hm g0) as [R _]. congruence. }
  destruct ev as [text | r | id | n d r]; cbn [step].
  - destruct (input_enabled (trace g)); [now destruct g | exact H].
  - apply S; [apply stable_send_message | now destruct g].
  - destruct (find _ (timers g)) as [tm|]; [|exact H].
    destruct (t_cb tm); cbn [run_callback].
    + rewrite check_model_status_ready. destruct g. cbn in *. now rewrite H.
    + apply S; [apply stable_hide_typing_indicator | now destruct g].
    + apply S; [apply stable_animate_typing | now destruct g].
  - destruct (nth_error (threads g) n) as [th|]; [|exact H].
    apply S; [apply stable_run_thread | now destruct g].
Qed.

Lemma run_ready_monotone (evs : list event) (g : t) :
  model_ready g = true -> model_ready (run evs g) = true.
Proof.
  revert g. induction evs as [|ev evs IH]; intros g H; [exact H|].
  cbn [run fold_left]. apply IH. now apply step_ready_monotone.
Qed.

Lemma run_app (evs evs' : list event) (g : t) :
  run (evs ++ evs') g = run evs' (run evs g).
Proof. unfold run. apply fold_left_app. Qed.

(** C4: over every execution the side effect of the readiness
    transition is performed exactly once, at the first status check that
    observes the backend initialized, and never again.  In every state
    the program reaches, the input has been enabled, the "ready" message
    shown and the initial status text set once each if [model_ready] is
    set and not at all otherwise; a status check sets [model_ready]
    exactly when it is set already or the backend is initialized; and
    once [model_ready] is set, each of the three counts is 1 after any
    further events. *)
Theorem readiness_fires_once (evs : list event) :
  let g := run evs init in
  (count is_enable (trace g) = b2n (model_ready g)
   /\ count is_ready_message (trace g) = b2n (model_ready g)
   /\ count is_ready_status (trace g) = b2n (model_ready g))
  /\ (let g' := exec _check_model_status g in
      let fired := model_ready g || NPUModel.initialized (model g) in
      model_ready g' = fired
      /\ count is_enable (trace g') = b2n fired
      /\ count is_ready_message (trace g') = b2n fired
      /\ count is_ready_status (trace g') = b2n fired)
  /\ (model_ready g = true ->
      forall evs',
        let g'' := run evs' g in
        model_ready g'' = true
        /\ count is_enable (trace g'') = 1
        /\ count is_ready_message (trace g'') = 1
        /\ count is_ready_status (trace g'') = 1).
Proof.
  intros g.
  assert (I : gate_inv g) by (apply run_inv, init_inv).
  split; [|split].
  - destruct I as [I1 I2 I3 _]. now repeat split.
  - cbn zeta. pose proof (check_model_status_inv g I) as [J1 J2 J3 _].
    rewrite <- check_model_status_ready. now repeat split.
  - intros Hr evs'. cbn zeta.
    pose proof (run_ready_monotone evs' g Hr) as Hr'.
    pose proof (run_inv evs' g I) as [J1 J2 J3 _].
    rewrite Hr' in J1, J2, J3. now repeat split.
Qed.

Lemma readiness_fires_once_witness :
  let d := NPUModel.Build_draws 0 0 0 0 0 0 0 in
  let g := run [Ev_thread 0 d 0; Ev_timer 0] init in
  model_ready g = true
  /\ (let g'' := run [Ev_timer 1; Ev_timer 2; Ev_timer 3] g in
      model_ready g'' = true
      /\ count is_enable (trace g'') = 1
      /\ count is_ready_message (trace g'') = 1
      /\ count is_ready_status (trace g'') = 1).
Proof.
  intros d g. split; [reflexivity|].
  destruct (readiness_fires_once [Ev_thread 0 d 0; Ev_timer 0]) as [_ [_ H]].
  apply (H eq_refl [Ev_timer 1; Ev_timer 2; Ev_timer 3]).
Defined.

(** C7: in the backend variant, while the model is not ready,
    submitting any text is ignored: [send_message] returns with the whole
    state as it was (no transcript entry, no context item, no thread, no
    timer), and the entry is and stays disabled. *)
Theorem submit_while_not_ready_is_ignored (g : t) (text : string) (r : nat) :
  reachable g ->
  model_ready g = false ->
  let g0 := set_user_input text g in
  send_message r g0 = (Ok tt, g0)
  /\ input_enabled (trace g0) = false
  /\ input_enabled (trace (exec (send_message r) g0)) = false.
Proof.
  intros Hr Hm g0.
  assert (E : send_message r g0 = (Ok tt, g0)).
  { unfold send_message, bind, gets, ret.
    replace (model_ready g0) with false by (subst g0; now destruct g).
    now rewrite orb_true_r. }
  assert (D : input_enabled (trace g0) = false).
  { pose proof (reachable_inv g Hr) as [_ _ _ I4].
    subst g0. destruct g. cbn in *. congruence. }
  split; [exact E|]. split; [exact D|].
  unfold exec. rewrite E. exact D.
Qed.

Lemma submit_while_not_ready_is_ignored_witness :
  let g0 := set_user_input "hello" init in
  send_message 0 g0 = (Ok tt, g0)
  /\ input_enabled (trace g0) = false
  /\ input_enabled (trace (exec (send_message 0) g0)) = false.
Proof.
  apply (submit_while_not_ready_is_ignored init "hello" 0).
  - exists []. reflexivity.
  - reflexivity.
Defined.

End ReadinessGate.

(* ================================================================== *)
(** ** ConversationController: submissions *)

Module Controller.
Import PyStr Py Tk PyStrFacts TurnSpec.
Local Open Scope py_scope.
Local Open Scope list_scope.

(** C8: when the entry holds only white space (or nothing), so that the
    trimmed text is empty, [send_message] returns with the whole state as
    it was, in both variants: nothing is appended to the transcript, the
    context list is as before, and no timer or thread is started. *)
Theorem blank_submission_changes_nothing :
  (forall g : R1.t,
      all_space (R1.user_input g) = true ->
      strip (R1.user_input g) = ""%string
      /\ R1.send_message g = (Ok tt, g))
  /\ (forall (g : NPU.t) (r : nat),
         all_space (NPU.user_input g) = true ->
         strip (NPU.user_input g) = ""%string
         /\ GUI.send_message r g = (Ok tt, g)).
Proof.
  split.
  - intros g H. apply strip_all_space in H. split; [exact H|].
    unfold R1.send_message, bind, gets, ret. now rewrite H.
  - intros g r H. apply strip_all_space in H. split; [exact H|].
    unfold GUI.send_message, bind, gets, ret. now rewrite H.
Qed.

Lemma blank_submission_changes_nothing_witness :
  (let g := R1.with_input "   " R1.init in R1.send_message g = (Ok tt, g))
  /\ (let g := NPU.set_user_input (String "009" " ") NPU.init in
      GUI.send_message 7 g = (Ok tt, g)).
Proof.
  destruct blank_submission_changes_nothing as [A B]. split.
  - apply (A (R1.with_input "   " R1.init)). reflexivity.
  - apply (B (NPU.set_user_input (String "009" " ") NPU.init) 7). reflexivity.
Defined.

(** C2, as stated, fails: with the turn for "a" pending (the message
    "a" is in the transcript and no response to it is), sending "b" is
    not a no-op in either variant; the message "b" is appended to the
    transcript and, in the backend variant, to the context list. *)
Lemma second_submission_is_accepted :
  (awaiting_npu pending_npu = true
   /\ lines "USER" (NPU.trace pending_npu)
      = [("USER", String "010" "[USER]: a")]%string
   /\ lines "NPU" (NPU.trace pending_npu) = []
   /\ lines "USER" (NPU.trace (exec (GUI.send_message 0) pending_npu))
      = [("USER", String "010" "[USER]: a");
         ("USER", String "010" "[USER]: b")]%string
   /\ NPU.current_context (exec (GUI.send_message 0) pending_npu)
      = ["a"; "b"]%string)
  /\ (awaiting_r1 pending_r1 = true
      /\ lines "user" (R1.trace pending_r1)
         = [("user", String "010" "a" ++ String "010" "")]%string
      /\ lines "user" (R1.trace (exec R1.send_message pending_r1))
         = [("user", String "010" "a" ++ String "010" "");
            ("user", String "010" "b" ++ String "010" "")]%string).
Proof. repeat split; vm_compute; reflexivity. Qed.

(** C2, amended: a pending turn does not block a submission.  In every
    state, with or without a pending turn, in which the trimmed text of
    the entry is not empty (and, in the backend variant, [model_ready] is
    set), [send_message] appends the user's message to the transcript
    and, in the backend variant, the text to the context list. *)
Theorem nonblank_submission_is_accepted :
  (forall (g : NPU.t) (r : nat),
      NPU.model_ready g = true ->
      truthy (strip (NPU.user_input g)) = true ->
      accepted_npu r g)
  /\ (forall g : R1.t,
         truthy (strip (R1.user_input g)) = true ->
         accepted_r1 g).
Proof.
  split.
  - intros g r Hr Ht. unfold accepted_npu. cbn zeta.
    destruct g as [m a cc mr ti ta ui tr tm ni th cu].
    cbn [NPU.model_ready NPU.user_input] in *. subst mr.
    unfold exec, GUI.send_message, bind, gets.
    cbn [NPU.user_input NPU.model_ready]. rewrite Ht. cbn [negb orb].
    remember (strip ui) as text eqn:E. clear E Ht.
    split;
      cbv -[Datatypes.app append str_of_nat randint input_enabled inserts];
      destruct (input_enabled _); cbn [inserts text_state];
      reflexivity.
  - intros g Ht. unfold accepted_r1. cbn zeta.
    destruct g as [ui ta im tr tm ni].
    unfold exec, R1.send_message, bind, gets.
    cbn [R1.user_input] in *. rewrite Ht. cbn [negb].
    remember (strip ui) as text eqn:E. clear E Ht.
    cbv -[Datatypes.app append inserts]. cbn [inserts text_state].
    reflexivity.
Qed.

Lemma nonblank_submission_is_accepted_witness :
  (awaiting_npu pending_npu = true /\ accepted_npu 0 pending_npu)
  /\ (awaiting_r1 pending_r1 = true /\ accepted_r1 pending_r1).
Proof.
  destruct nonblank_submission_is_accepted as [A B].
  split; (split; [reflexivity|]).
  - apply (A pending_npu 0); reflexivity.
  - apply (B pending_r1); reflexivity.
Defined.

End Controller.

(* ================================================================== *)
(** ** TypingIndicatorAnimator: stopping the animation *)

Module TypingIndicator.
Import PyStr Py Tk TurnSpec.
Local Open Scope py_scope.
Local Open Scope list_scope.

(** C3 fails in the backend variant: [_hide_typing_indicator] guards
    [typing_anim] with [hasattr] but reads [typing_id] unguarded, so
    stopping an indicator that was never started raises
    [AttributeError]; this holds in the state [__init__] leaves and in
    every state in which [typing_id] has not been assigned. *)
Theorem hide_typing_indicator_before_start_raises :
  NPU.typing_id NPU.init = None
  /\ result GUI._hide_typing_indicator NPU.init
     = Raise (AttributeError "typing_id")
  /\ forall g : NPU.t,
       result GUI._hide_typing_indicator (NPU.set_typing_id None g)
       = Raise (AttributeError "typing_id").
Proof.
  split; [reflexivity|]. split; [reflexivity|].
  intros g. destruct g as [m a cc mr ti ta ui tr tm ni th cu].
  destruct ta; reflexivity.
Qed.

(** The simple variant guards the whole stop path with
    [if self.typing_animation], so there stopping before any start does
    nothing to the timers and the placeholder and the response is
    shown. *)
Lemma generate_response_before_start_is_safe (r : nat) (text : string) :
  R1.typing_animation R1.init = None
  /\ result (R1._generate_response r text) R1.init = Ok tt
  /\ R1.timers (exec (R1._generate_response r text) R1.init) = [].
Proof.
  split; [reflexivity|].
  destruct (ResponseStrategy.simple_generate_response_in_pool r text)
    as [resp [E _]].
  unfold result, exec, R1._generate_response, bind, gets, lift.
  cbn [R1.typing_animation R1.init exec R1.__init__ R1._show_message
       R1.blank R1.tk bind modify ret snd fst].
  rewrite E. split; reflexivity.
Qed.

(** The placeholder line [_animate_typing] builds is longer than the 13
    characters the stop path asks the transcript to delete. *)
Lemma placeholder_longer_than_deleted (count : nat) :
  String.length (String "010" "[NPU Processing" ++ GUI.dots (count mod 4) ++ "]")%string
  = 17 + count mod 4.
Proof.
  pose proof (Nat.mod_upper_bound count 4 ltac:(discriminate)) as H.
  destruct (count mod 4) as [|[|[|[|?]]]]; try reflexivity. lia.
Qed.

End TypingIndicator.

(* ================================================================== *)
(** ** Delivery of the completion *)

Module Completion.
Import PyStr Py Tk TurnSpec.
Local Open Scope py_scope.
Local Open Scope list_scope.

(** C5 fails: the inference thread calls the callback itself, and
    [_handle_model_response] hands only [_hide_typing_indicator] over to
    the main loop with [after(0, ...)]; the transcript insert, the
    context append and the two label updates run in the worker thread. *)
Theorem completion_mutates_widgets_on_worker_thread
    (g : NPU.t) (n : nat) (d : NPU.NPUModel.draws) (r : nat) (text : string) :
  nth_error (NPU.threads g) n
  = Some (NPU.Th_run_inference text NPU.On_handle_model_response) ->
  completes_on_worker g n d r text.
Proof.
  intros H. unfold completes_on_worker.
  destruct (Strategy.generate_response_returns (NPU.model g) d text)
    as [response E].
  exists response. split; [exact E|].
  cbn zeta. unfold NPU.step. rewrite H.
  destruct g as [m a cc mr ti ta ui tr tm ni th cu].
  cbn [NPU.model] in E.
  unfold exec, NPU.run_thread, bind, gets, lift.
  cbn [NPU.model NPU.set_current NPU.set_threads NPU.threads].
  rewrite E. repeat split.
Qed.

Lemma completion_mutates_widgets_on_worker_thread_witness :
  calls_in Worker (NPU.trace generating_npu) = []
  /\ completes_on_worker generating_npu 0
       (NPU.NPUModel.Build_draws 0 0 0 0 0 0 0) 0 "a".
Proof.
  split; [reflexivity|].
  apply (completion_mutates_widgets_on_worker_thread
           generating_npu 0 (NPU.NPUModel.Build_draws 0 0 0 0 0 0 0)
           0 "a").
  reflexivity.
Defined.

End Completion.

(* ================================================================== *)
(** * Further properties of the code *)

(** ** What each method of the backend variant does to the scheduler *)

Module Footprint.
Import PyStr Py Tk.
Import CatSEEK_test CatSEEK_test.CatSeekGUI.
Local Open Scope py_scope.
Local Open Scope list_scope.

(** The part of the state that decides what runs next and whether it
    can raise. *)
Record sched : Type := {
  s_timers : list timer;
  s_next_id : nat;
  s_typing_anim : option nat;
  s_typing_id : option pyvalue;
  s_threads : list thread;
  s_model : NPUModel.t;
  s_model_ready : bool
}.

Definition sched_of (g : t) : sched :=
  {| s_timers := timers g; s_next_id := next_id g;
     s_typing_anim := typing_anim g; s_typing_id := typing_id g;
     s_threads := threads g; s_model := model g;
     s_model_ready := model_ready g |}.

(** A new timer for [cb], as [after(ms, cb)] creates it. *)
Definition arm (ms : nat) (cb : callback) (s : sched) : sched :=
  {| s_timers := s_timers s
                 ++ [{| t_id := s_next_id s; t_ms := ms; t_cb := cb |}];
     s_next_id := S (s_next_id s);
     s_typing_anim := s_typing_anim s; s_typing_id := s_typing_id s;
     s_threads := s_threads s; s_model := s_model s;
     s_model_ready := s_model_ready s |}.

(** The timers without those of the given id, as [after_cancel] leaves
    them. *)
Definition without (id : nat) (tms : list timer) : list timer :=
  filter (fun tm => negb (t_id tm =? id)%nat) tms.

Definition cancel_anim (s : sched) : sched :=
  {| s_timers := match s_typing_anim s with
                 | Some id => without id (s_timers s)
                 | None => s_timers s
                 end;
     s_next_id := s_next_id s;
     s_typing_anim := s_typing_anim s; s_typing_id := s_typing_id s;
     s_threads := s_threads s; s_model := s_model s;
     s_model_ready := s_model_ready s |}.

(** [typing_id] assigned what [Text.insert] returned. *)
Definition with_typing_id (s : sched) : sched :=
  {| s_timers := s_timers s; s_next_id := s_next_id s;
     s_typing_anim := s_typing_anim s; s_typing_id := Some PyNone;
     s_threads := s_threads s; s_model := s_model s;
     s_model_ready := s_model_ready s |}.

Definition with_ready (b : bool) (s : sched) : sched :=
  {| s_timers := s_timers s; s_next_id := s_next_id s;
     s_typing_anim := s_typing_anim s; s_typing_id := s_typing_id s;
     s_threads := s_threads s; s_model := s_model s;
     s_model_ready := b |}.

(** [send_message] accepts the submission in state [g]. *)
Definition accepts (g : t) : bool :=
  truthy (strip (user_input g)) && model_ready g.

(** An accepted submission gets as far as the first [delete] of the
    typing indicator: [typing_id] is assigned, no timer is armed and no
    thread is started. *)
Lemma send_message_sched (r : nat) (g : t) :
  result (send_message r) g = (if accepts g then Raise TclError else Ok tt)
  /\ sched_of (exec (send_message r) g)
     = if accepts g then with_typing_id (sched_of g) else sched_of g.
Proof.
  destruct g as [m a cc mr ti ta ui tr tm ni th cu].
  unfold accepts, result, exec, send_message, bind, gets.
  cbn [user_input model_ready].
  destruct (truthy (strip ui)), mr; cbn [negb orb andb];
    try (split; reflexivity).
  remember (strip ui) as text eqn:E. clear E.
  split;
    cbv -[Datatypes.app append str_of_nat randint input_enabled];
    destruct (input_enabled _); reflexivity.
Qed.

Lemma check_model_status_sched (g : t) :
  _check_model_status g = (Ok tt, exec _check_model_status g)
  /\ sched_of (exec _check_model_status g)
     = arm 1000 Cb_check_model_status
         (with_ready (model_ready g || NPUModel.initialized (model g))
            (sched_of g)).
Proof.
  destruct g as [[ini] a cc mr ti ta ui tr tm ni th cu].
  destruct ini, mr; split; reflexivity.
Qed.

(** [_animate_typing] never gets past its [delete]. *)
Lemma animate_typing_sched (count : nat) (g : t) :
  exec (_animate_typing count) g = g
  /\ result (_animate_typing count) g
     = match typing_id g with
       | Some _ => Raise TclError
       | None => Raise (AttributeError "typing_id")
       end.
Proof.
  destruct g as [m a cc mr ti ta ui tr tm ni th cu].
  destruct ti as [[]|]; split; reflexivity.
Qed.

(** [_hide_typing_indicator] cancels the tick and then raises. *)
Lemma hide_typing_indicator_sched (g : t) :
  sched_of (exec _hide_typing_indicator g) = cancel_anim (sched_of g)
  /\ result _hide_typing_indicator g
     = match typing_id g with
       | Some _ => Raise TclError
       | None => Raise (AttributeError "typing_id")
       end.
Proof.
  destruct g as [m a cc mr ti ta ui tr tm ni th cu].
  destruct ti as [[]|], ta; split; reflexivity.
Qed.

Lemma handle_model_response_sched (response : string) (r : nat) (g : t) :
  result (_handle_model_response response r) g = Ok tt
  /\ sched_of (exec (_handle_model_response response r) g)
     = arm 0 Cb_hide_typing_indicator (sched_of g).
Proof.
  destruct g as [m a cc mr ti ta ui tr tm ni th cu]. split; reflexivity.
Qed.

End Footprint.

(* ================================================================== *)
(** ** Invariants of the scheduler of the backend variant *)

Module Scheduler.
Import PyStr Py Tk Footprint.
Import CatSEEK_test CatSEEK_test.CatSeekGUI.
Local Open Scope py_scope.
Local Open Scope list_scope.

Definition is_check (tm : timer) : bool :=
  match t_cb tm with
  | Cb_check_model_status => true
  | _ => false
  end.

Definition is_inference (th : thread) : bool :=
  match th with
  | Th_run_inference _ _ => true
  | Th_load_model => false
  end.

(** How many status checks are pending. *)
Definition polls (tms : list timer) : nat := length (filter is_check tms).

(** The timers: their ids are below the next id and pairwise different,
    and [c] status checks are pending. *)
Record timers_inv (c : nat) (s : sched) : Prop := {
  ti_fresh : Forall (fun tm => t_id tm < s_next_id s) (s_timers s);
  ti_nodup : NoDup (map t_id (s_timers s));
  ti_polls : polls (s_timers s) = c
}.

(** The turns: [model_ready] is set only once the model is initialized,
    no inference thread is running, only status checks are pending, and
    [typing_anim] has not been assigned. *)
Record turn_inv (s : sched) : Prop := {
  tu_ready : s_model_ready s = true -> NPUModel.initialized (s_model s) = true;
  tu_idle : existsb is_inference (s_threads s) = false;
  tu_checks : forallb is_check (s_timers s) = true;
  tu_anim : s_typing_anim s = None
}.

(** The timer the main loop fires for [id], and the timers left. *)
Definition fire (id : nat) (s : sched) : sched :=
  {| s_timers := without id (s_timers s); s_next_id := s_next_id s;
     s_typing_anim := s_typing_anim s; s_typing_id := s_typing_id s;
     s_threads := s_threads s; s_model := s_model s;
     s_model_ready := s_model_ready s |}.

Definition with_threads (ths : list thread) (s : sched) : sched :=
  {| s_timers := s_timers s; s_next_id := s_next_id s;
     s_typing_anim := s_typing_anim s; s_typing_id := s_typing_id s;
     s_threads := ths; s_model := s_model s;
     s_model_ready := s_model_ready s |}.

Definition with_model (m : NPUModel.t) (s : sched) : sched :=
  {| s_timers := s_timers s; s_next_id := s_next_id s;
     s_typing_anim := s_typing_anim s; s_typing_id := s_typing_id s;
     s_threads := s_threads s; s_model := m;
     s_model_ready := s_model_ready s |}.

Definition b2n (b : bool) : nat := if b then 1 else 0.

Lemma polls_app (l l' : list timer) : polls (l ++ l') = polls l + polls l'.
Proof. unfold polls. now rewrite filter_app, length_app. Qed.

Lemma without_In (id : nat) (tms : list timer) (tm : timer) :
  In tm (without id tms) <-> In tm tms /\ t_id tm <> id.
Proof.
  unfold without. rewrite filter_In, negb_true_iff, Nat.eqb_neq. tauto.
Qed.

Lemma without_nodup (id : nat) (tms : list timer) :
  NoDup (map t_id tms) -> NoDup (map t_id (without id tms)).
Proof.
  induction tms as [|tm tms IH]; cbn [without filter map]; [trivial|].
  intros H. inversion H as [|x l Hn Hd]; subst.
  destruct (negb (t_id tm =? id)%nat); cbn [map]; [|now apply IH].
  constructor; [|now apply IH].
  intros Hin. apply Hn. apply in_map_iff in Hin as [tm' [E Hin]].
  apply in_map_iff. exists tm'. split; [exact E|].
  now apply (without_In id tms tm') in Hin.
Qed.

(** Firing the timer of an id takes exactly that timer away. *)
Lemma polls_without_fired (id : nat) (tms : list timer) (tm : timer) :
  NoDup (map t_id tms) ->
  find (fun tm => (t_id tm =? id)%nat) tms = Some tm ->
  polls (without id tms) + b2n (is_check tm) = polls tms.
Proof.
  unfold polls, without.
  induction tms as [|tm0 tms IH]; intros Hnd Hf; [discriminate Hf|].
  inversion Hnd as [|x l Hn Hd]; subst.
  cbn [find filter] in *.
  destruct (Nat.eqb_spec (t_id tm0) id) as [E|E]; cbn [negb].
  - injection Hf as ->.
    assert (Hrest : filter (fun tm0 => negb (t_id tm0 =? id)%nat) tms = tms).
    { apply forallb_filter_id. apply forallb_forall. intros tm' Hin.
      apply negb_true_iff, Nat.eqb_neq. intros E'. apply Hn.
      apply in_map_iff. exists tm'. split; [congruence | exact Hin]. }
    rewrite Hrest. destruct (is_check tm); cbn [length b2n]; lia.
  - cbn [filter]. specialize (IH Hd Hf).
    destruct (is_check tm0); cbn [length]; lia.
Qed.

Lemma timers_inv_ext (c : nat) (s s' : sched) :
  s_timers s' = s_timers s ->
  s_next_id s' = s_next_id s ->
  timers_inv c s -> timers_inv c s'.
Proof.
  intros E1 E2 [F N P]. constructor; rewrite ?E1, ?E2; assumption.
Qed.

Lemma fresh_not_in (s : sched) (c : nat) :
  timers_inv c s -> ~ In (s_next_id s) (map t_id (s_timers s)).
Proof.
  intros [F _ _] Hin. apply in_map_iff in Hin as [tm [E Hin]].
  rewrite Forall_forall in F. specialize (F tm Hin). lia.
Qed.

Lemma nodup_snoc (tms : list timer) (tm : timer) :
  NoDup (map t_id tms) -> ~ In (t_id tm) (map t_id tms) ->
  NoDup (map t_id (tms ++ [tm])).
Proof.
  intros Hnd Hn. rewrite map_app. cbn [map].
  apply NoDup_app; [exact Hnd | repeat constructor; intros [] |].
  intros id Hin [<- | []]. now apply Hn.
Qed.

(** [after(ms, cb)] keeps the timers well formed; a new status check
    counts. *)
Lemma arm_timers_inv (c ms : nat) (cb : callback) (s : sched) :
  timers_inv c s ->
  timers_inv (c + b2n (is_check {| t_id := s_next_id s; t_ms := ms; t_cb := cb |}))
    (arm ms cb s).
Proof.
  intros I. pose proof (fresh_not_in s c I) as Hfresh.
  destruct I as [F N P]. constructor; cbn [arm s_timers s_next_id].
  - apply Forall_app. split.
    + eapply Forall_impl; [|exact F]. cbn. intros; lia.
    + constructor; [cbn; lia | constructor].
  - now apply nodup_snoc.
  - rewrite polls_app, P. unfold polls at 1. cbn [filter].
    now destruct (is_check _).
Qed.

(** The main loop takes the fired timer away: a status check less if it
    was one. *)
Lemma fire_timers_inv (c id : nat) (s : sched) (tm : timer) :
  timers_inv c s ->
  find (fun tm => (t_id tm =? id)%nat) (s_timers s) = Some tm ->
  b2n (is_check tm) <= c
  /\ timers_inv (c - b2n (is_check tm)) (fire id s).
Proof.
  intros [F N P] Hf.
  pose proof (polls_without_fired id (s_timers s) tm N Hf) as Hp.
  split; [lia|].
  constructor; cbn [fire s_timers s_next_id].
  - rewrite Forall_forall in *. intros tm' Hin. apply F.
    now apply without_In in Hin.
  - now apply without_nodup.
  - lia.
Qed.

Lemma existsb_remove_nth {A} (p : A -> bool) (n : nat) (l : list A) :
  existsb p (remove_nth n l) = true -> existsb p l = true.
Proof.
  revert n. induction l as [|x l IH]; intros n; [now destruct n|].
  destruct n as [|n]; cbn [remove_nth existsb].
  - intros H. rewrite H. apply orb_true_r.
  - intros H. apply orb_true_iff in H as [H | H].
    + now rewrite H.
    + rewrite (IH n H). apply orb_true_r.
Qed.

Lemma nth_error_existsb {A} (p : A -> bool) (n : nat) (l : list A) (x : A) :
  nth_error l n = Some x -> p x = true -> existsb p l = true.
Proof.
  intros Hn Hp. apply existsb_exists. exists x. split; [|exact Hp].
  eapply nth_error_In. exact Hn.
Qed.

(** What a fired callback does to the scheduler. *)
Definition sched_after_callback (cb : callback) (s : sched) : sched :=
  match cb with
  | Cb_check_model_status =>
      arm 1000 Cb_check_model_status
        (with_ready (s_model_ready s || NPUModel.initialized (s_model s)) s)
  | Cb_hide_typing_indicator => cancel_anim s
  | Cb_animate_typing _ => s
  end.

(** What an event does to the scheduler. *)
Definition sched_after (ev : event) (g : t) : sched :=
  match ev with
  | Ev_type _ => sched_of g
  | Ev_send _ =>
      if accepts g then with_typing_id (sched_of g) else sched_of g
  | Ev_timer id =>
      match find (fun tm => (t_id tm =? id)%nat) (timers g) with
      | Some tm => sched_after_callback (t_cb tm) (fire id (sched_of g))
      | None => sched_of g
      end
  | Ev_thread n _ _ =>
      match nth_error (threads g) n with
      | Some Th_load_model =>
          with_model (NPUModel.initialize_model (model g))
            (with_threads (remove_nth n (threads g)) (sched_of g))
      | Some (Th_run_inference _ _) =>
          arm 0 Cb_hide_typing_indicator
            (with_threads (remove_nth n (threads g)) (sched_of g))
      | None => sched_of g
      end
  end.

(** The outcome of handling an event: what the callback or the thread
    body returns or raises. *)
Definition step_outcome (ev : event) (g : t) : outcome unit :=
  match ev with
  | Ev_type _ => Ok tt
  | Ev_send r => result (send_message r) (set_current UI g)
  | Ev_timer id =>
      match find (fun tm => (t_id tm =? id)%nat) (timers g) with
      | Some tm =>
          result (run_callback (t_cb tm))
            (set_current UI (set_timers (without id (timers g)) g))
      | None => Ok tt
      end
  | Ev_thread n d r =>
      match nth_error (threads g) n with
      | Some th =>
          result (run_thread d r th)
            (set_current Worker (set_threads (remove_nth n (threads g)) g))
      | None => Ok tt
      end
  end.

Definition sched_ok (s : sched) : Prop := timers_inv 1 s /\ turn_inv s.

Lemma run_callback_sched (cb : callback) (g : t) :
  sched_of (exec (run_callback cb) g) = sched_after_callback cb (sched_of g).
Proof.
  destruct cb as [| |count]; cbn [run_callback sched_after_callback].
  - apply check_model_status_sched.
  - apply hide_typing_indicator_sched.
  - now rewrite (proj1 (animate_typing_sched count g)).
Qed.

Lemma step_sched (ev : event) (g : t) :
  sched_of (step ev g) = sched_after ev g.
Proof.
  destruct ev as [text | r | id | n d r]; cbn [step sched_after].
  - destruct (input_enabled (trace g)); now destruct g.
  - destruct (send_message_sched r (set_current UI g)) as [_ E].
    rewrite E. now destruct g.
  - fold (without id (timers g)).
    destruct (find _ (timers g)) as [tm|]; [|reflexivity].
    rewrite run_callback_sched. now destruct g.
  - destruct (nth_error (threads g) n) as [[|text on_done]|]; [| |reflexivity].
    + now destruct g.
    + destruct (Strategy.generate_response_returns (model g) d text)
        as [response E].
      destruct g as [m a cc mr ti ta ui tr tm ni th cu].
      cbn [model] in E.
      unfold exec, run_thread, bind, gets, lift.
      cbn [model set_current set_threads threads]. rewrite E.
      destruct on_done. reflexivity.
Qed.

Lemma forallb_without (p : timer -> bool) (id : nat) (tms : list timer) :
  forallb p tms = true -> forallb p (without id tms) = true.
Proof.
  rewrite !forallb_forall. intros H tm Hin. apply H.
  now apply without_In in Hin.
Qed.

Lemma accepts_true (g : t) :
  accepts g = true ->
  truthy (strip (user_input g)) = true /\ model_ready g = true.
Proof. unfold accepts. apply andb_true_iff. Qed.

Lemma find_In (id : nat) (tms : list timer) (tm : timer) :
  find (fun tm => (t_id tm =? id)%nat) tms = Some tm ->
  In tm tms /\ t_id tm = id.
Proof.
  intros H. apply find_some in H as [Hin E]. split; [exact Hin|].
  now apply Nat.eqb_eq.
Qed.

(** While only status checks are pending, the timer that fires is
    one. *)
Lemma fired_is_check (s : sched) (id : nat) (tm : timer) :
  turn_inv s ->
  find (fun tm => (t_id tm =? id)%nat) (s_timers s) = Some tm ->
  t_cb tm = Cb_check_model_status.
Proof.
  intros [_ _ C _] Hf. apply find_In in Hf as [Hin _].
  rewrite forallb_forall in C. specialize (C tm Hin).
  unfold is_check in C. now destruct (t_cb tm).
Qed.

(** While no inference runs, the thread that runs is the loading. *)
Lemma running_is_load (s : sched) (n : nat) (th : thread) :
  turn_inv s -> nth_error (s_threads s) n = Some th -> th = Th_load_model.
Proof.
  intros [_ I _ _] Hn. destruct th as [|text on_done]; [reflexivity|].
  assert (H : existsb is_inference (s_threads s) = true)
    by (eapply nth_error_existsb; [exact Hn | reflexivity]).
  congruence.
Qed.

(** Every event keeps the invariants of the scheduler. *)
Lemma sched_after_ok (ev : event) (g : t) :
  sched_ok (sched_of g) -> sched_ok (sched_after ev g).
Proof.
  intros [TI TU]. destruct ev as [text | r | id | n d r]; cbn [sched_after].
  - now split.
  - destruct (accepts g); [|now split].
    split.
    + eapply timers_inv_ext; [| |exact TI]; reflexivity.
    + destruct TU as [R I C A]. now constructor.
  - destruct (find _ (timers g)) as [tm|] eqn:Hf; [|now split].
    destruct (fire_timers_inv 1 id (sched_of g) tm TI Hf) as [Hle TF].
    pose proof (fired_is_check (sched_of g) id tm TU Hf) as Ecb.
    unfold is_check in TF. rewrite Ecb in TF |- *.
    cbn [b2n Nat.sub] in TF. cbn [sched_after_callback]. split.
    + apply (arm_timers_inv 0 1000 Cb_check_model_status).
      eapply timers_inv_ext; [| |exact TF]; reflexivity.
    + destruct TU as [R I C A]. constructor; cbn in *.
      * intros Hb. apply orb_true_iff in Hb as [Hb | Hb]; auto.
      * exact I.
      * rewrite forallb_app. fold (without id (timers g)).
        rewrite (forallb_without is_check id (timers g) C). reflexivity.
      * exact A.
  - destruct (nth_error (threads g) n) as [th|] eqn:Hn; [|now split].
    rewrite (running_is_load (sched_of g) n th TU Hn).
    split.
    + eapply timers_inv_ext; [| |exact TI]; reflexivity.
    + destruct TU as [R I C A]. constructor; cbn in *.
      * reflexivity.
      * destruct (existsb is_inference (remove_nth n (threads g))) eqn:Hex;
          [|reflexivity].
        apply existsb_remove_nth in Hex. congruence.
      * exact C.
      * exact A.
Qed.

Lemma init_sched_ok : sched_ok (sched_of init).
Proof.
  split.
  - constructor; cbn.
    + repeat constructor.
    + repeat constructor. intros [].
    + reflexivity.
  - constructor; cbn; try reflexivity. discriminate.
Qed.

Lemma run_sched_ok (evs : list event) (g : t) :
  sched_ok (sched_of g) -> sched_ok (sched_of (run evs g)).
Proof.
  revert g. induction evs as [|ev evs IH]; intros g H; [exact H|].
  cbn [run fold_left]. apply IH. rewrite step_sched. now apply sched_after_ok.
Qed.

Lemma reachable_sched_ok (g : t) : reachable g -> sched_ok (sched_of g).
Proof. intros [evs ->]. apply run_sched_ok, init_sched_ok. Qed.

End Scheduler.

(* ================================================================== *)
(** ** Runs of the backend variant *)

Module BackendRun.
Import PyStr Py Tk StrategySpec Footprint Scheduler.
Import CatSEEK_test CatSEEK_test.CatSeekGUI.
Local Open Scope py_scope.
Local Open Scope list_scope.

(** X1: the status check never stops and never multiplies: in every state
    the program reaches, also after the model is ready, exactly one
    [_check_model_status] callback is pending, and no two pending timers
    share an id. *)
Theorem status_check_always_pending (evs : list event) :
  let g := run evs init in
  polls (timers g) = 1 /\ NoDup (map t_id (timers g)).
Proof.
  intros g.
  destruct (reachable_sched_ok g (ex_intro _ evs eq_refl)) as [[_ N P] _].
  split; [exact P | exact N].
Qed.

(** X2: through the window the "Error: Model not loaded" answer cannot
    occur: an inference thread exists only when [model_ready] is set,
    and [model_ready] is set only when the model is initialized, so that
    every inference the program runs, and every inference run while
    [model_ready] is set, finds the model initialized and answers in the
    documented shape. *)
Theorem inference_finds_model_loaded (evs : list event) :
  let g := run evs init in
  (forall n text on_done,
      nth_error (threads g) n = Some (Th_run_inference text on_done) ->
      model_ready g = true)
  /\ (model_ready g = true ->
      NPUModel.initialized (model g) = true
      /\ forall d text,
           system_shape text (NPUModel.generate_response (model g) d text)).
Proof.
  intros g.
  destruct (reachable_sched_ok g (ex_intro _ evs eq_refl)) as [_ TU].
  split.
  - intros n text on_done Hn.
    pose proof (running_is_load (sched_of g) n _ TU Hn) as E. discriminate E.
  - intros Hr. destruct TU as [R _ _ _]. cbn in R. specialize (R Hr).
    split; [exact R|]. intros d text.
    now apply Strategy.loaded_model_answers_in_shape.
Qed.

Lemma inference_finds_model_loaded_witness :
  let d := NPUModel.Build_draws 0 0 0 0 0 0 0 in
  let g := run [Ev_thread 0 d 0; Ev_timer 0; Ev_type "hi there"] init in
  model_ready g = true
  /\ NPUModel.initialized (model g) = true
  /\ system_shape "hi there"
       (NPUModel.generate_response (model g) d "hi there").
Proof.
  intros d g. split; [reflexivity|].
  destruct (inference_finds_model_loaded
              [Ev_thread 0 d 0; Ev_timer 0; Ev_type "hi there"]) as [_ H].
  destruct (H eq_refl) as [Hi Hs].
  split; [exact Hi | exact (Hs d "hi there")].
Defined.

(** X3: the only event that raises is an accepted submission: in every
    state the program reaches, typing, a rejected submission, the firing
    of a timer and the run of a thread return normally, and a submission
    that [send_message] accepts ends in the [TclError] of the first
    [delete] of the typing indicator. *)
Theorem accepted_submission_is_the_only_raise (evs : list event) (ev : event) :
  let g := run evs init in
  step_outcome ev g
  = match ev with
    | Ev_send _ => if accepts g then Raise TclError else Ok tt
    | _ => Ok tt
    end.
Proof.
  intros g.
  destruct (reachable_sched_ok g (ex_intro _ evs eq_refl)) as [TI TU].
  destruct ev as [text | r | id | n d r]; cbn [step_outcome].
  - reflexivity.
  - rewrite (proj1 (send_message_sched r (set_current UI g))).
    now destruct g.
  - destruct (find _ (timers g)) as [tm|] eqn:Hf; [|reflexivity].
    rewrite (fired_is_check (sched_of g) id tm TU Hf). cbn [run_callback].
    unfold result. now rewrite (proj1 (check_model_status_sched _)).
  - destruct (nth_error (threads g) n) as [th|] eqn:Hn; [|reflexivity].
    now rewrite (running_is_load (sched_of g) n th TU Hn).
Qed.

(** X4: the stop path of the backend variant never returns normally:
    [_hide_typing_indicator] cancels the tick [typing_anim] names, if
    there is one, and then raises, [AttributeError] as long as
    [typing_id] has not been assigned and [TclError] afterwards, since
    the value assigned is the [None] that [insert] returns; the
    transcript is left as it was. *)
Theorem hide_typing_indicator_always_raises (g : t) :
  let g1 := exec _hide_typing_indicator g in
  result _hide_typing_indicator g
  = match typing_id g with
    | Some _ => Raise TclError
    | None => Raise (AttributeError "typing_id")
    end
  /\ timers g1
     = match typing_anim g with
       | Some id => without id (timers g)
       | None => timers g
       end
  /\ trace g1 = trace g.
Proof.
  destruct g as [m a cc mr ti ta ui tr tm ni th cu].
  destruct ti as [[]|], ta; repeat split.
Qed.

End BackendRun.

(* ================================================================== *)
(** ** The context list and its counter *)

Module ContextList.
Import PyStr Py Tk StrategySpec Footprint Scheduler.
Import CatSEEK_test CatSEEK_test.CatSeekGUI.
Local Open Scope py_scope.
Local Open Scope list_scope.

(** The text the context label shows after the calls of [tr]; the label
    is created with the text "Context: 0 items". *)
Fixpoint context_label (tr : Tk.trace) : string :=
  match tr with
  | [] => "Context: 0 items"
  | (_, ContextConfig text) :: _ => text
  | _ :: tr' => context_label tr'
  end.

(** The text [_update_context_display] gives the label for [n] items. *)
Definition items (n : nat) : string :=
  ("Context: " ++ str_of_nat n ++ " items")%string.

(** The context list and the transcript, as the user sees them. *)
Record view : Type := {
  v_context : list string;
  v_label : string;
  v_inserts : list (string * string)
}.

Definition view_of (g : t) : view :=
  {| v_context := current_context g;
     v_label := context_label (trace g);
     v_inserts := inserts (trace g) |}.

(** One more item [x] in the context list, shown with [shown] in the
    transcript. *)
Definition add_item (x : string) (shown : list (string * string)) (v : view)
  : view :=
  {| v_context := v_context v ++ [x];
     v_label := items (length (v_context v ++ [x]));
     v_inserts := v_inserts v ++ shown |}.

Definition show (shown : list (string * string)) (v : view) : view :=
  {| v_context := v_context v; v_label := v_label v;
     v_inserts := v_inserts v ++ shown |}.

(** An accepted submission shows the user's line and counts the text;
    the line of the typing indicator goes into a DISABLED widget. *)
Lemma send_message_view (r : nat) (g : t) :
  view_of (exec (send_message r) g)
  = if accepts g
    then add_item (strip (user_input g))
           [("USER", (String "010" "[USER]: " ++ strip (user_input g))%string)]
           (view_of g)
    else view_of g.
Proof.
  destruct g as [m a cc mr ti ta ui tr tm ni th cu].
  unfold accepts, exec, send_message, bind, gets.
  cbn [user_input model_ready].
  destruct (truthy (strip ui)), mr; cbn [negb orb andb]; try reflexivity.
  remember (strip ui) as text eqn:E. clear E.
  cbv -[Datatypes.app append str_of_nat randint input_enabled inserts
        context_label length].
  destruct (input_enabled _); cbn [inserts text_state context_label];
    reflexivity.
Qed.

Lemma handle_model_response_view (response : string) (r : nat) (g : t) :
  view_of (exec (_handle_model_response response r) g)
  = add_item response
      [("NPU", (String "010" "[NPU]: " ++ response)%string)] (view_of g).
Proof.
  destruct g as [m a cc mr ti ta ui tr tm ni th cu]. reflexivity.
Qed.

Lemma check_model_status_view (g : t) :
  view_of (exec _check_model_status g)
  = if NPUModel.initialized (model g) && negb (model_ready g)
    then show [("SYSTEM", String "010" "[SYSTEM]: NPU subsystem ready")]
           (view_of g)
    else view_of g.
Proof.
  destruct g as [[ini] a cc mr ti ta ui tr tm ni th cu].
  destruct ini, mr; reflexivity.
Qed.

Lemma hide_typing_indicator_view (g : t) :
  view_of (exec _hide_typing_indicator g) = view_of g.
Proof.
  destruct g as [m a cc mr ti ta ui tr tm ni th cu].
  destruct ti as [[]|], ta; reflexivity.
Qed.

Lemma animate_typing_view (count : nat) (g : t) :
  view_of (exec (_animate_typing count) g) = view_of g.
Proof. now rewrite (proj1 (animate_typing_sched count g)). Qed.

(** What an event does to the context list and the transcript. *)
Definition view_after (ev : event) (g : t) : view :=
  match ev with
  | Ev_type _ => view_of g
  | Ev_send _ =>
      if accepts g
      then add_item (strip (user_input g))
             [("USER", (String "010" "[USER]: " ++ strip (user_input g))%string)]
             (view_of g)
      else view_of g
  | Ev_timer id =>
      match find (fun tm => (t_id tm =? id)%nat) (timers g) with
      | Some tm =>
          match t_cb tm with
          | Cb_check_model_status =>
              if NPUModel.initialized (model g) && negb (model_ready g)
              then show [("SYSTEM", String "010" "[SYSTEM]: NPU subsystem ready")]
                     (view_of g)
              else view_of g
          | Cb_hide_typing_indicator => view_of g
          | Cb_animate_typing _ => view_of g
          end
      | None => view_of g
      end
  | Ev_thread n d _ =>
      match nth_error (threads g) n with
      | Some (Th_run_inference text _) =>
          match NPUModel.generate_response (model g) d text with
          | Ok response =>
              add_item response
                [("NPU", (String "010" "[NPU]: " ++ response)%string)]
                (view_of g)
          | Raise _ => view_of g
          end
      | _ => view_of g
      end
  end.

Lemma step_view (ev : event) (g : t) :
  view_of (step ev g) = view_after ev g.
Proof.
  destruct ev as [text | r | id | n d r]; cbn [step view_after].
  - destruct (input_enabled (trace g)); now destruct g.
  - rewrite send_message_view. now destruct g.
  - destruct (find _ (timers g)) as [tm|]; [|reflexivity].
    destruct (t_cb tm) as [| |count]; cbn [run_callback].
    + rewrite check_model_status_view. now destruct g.
    + rewrite hide_typing_indicator_view. now destruct g.
    + rewrite animate_typing_view. now destruct g.
  - destruct (nth_error (threads g) n) as [[|text on_done]|]; [| |reflexivity].
    + now destruct g.
    + destruct g as [m a cc mr ti ta ui tr tm ni th cu].
      unfold exec, run_thread, bind, gets, lift.
      cbn [model set_current set_threads threads fst snd].
      destruct (NPUModel.generate_response m d text) as [response|e];
        [|reflexivity].
      destruct on_done. reflexivity.
Qed.

(** The label shows the length of the context list. *)
Definition in_sync (v : view) : Prop :=
  v_label v = items (length (v_context v)).

Lemma view_after_in_sync (ev : event) (g : t) :
  in_sync (view_of g) -> in_sync (view_after ev g).
Proof.
  intros H. destruct ev as [text | r | id | n d r]; cbn [view_after].
  - exact H.
  - destruct (accepts g); [reflexivity | exact H].
  - destruct (find _ (timers g)) as [tm|]; [|exact H].
    destruct (t_cb tm) as [| |count].
    + destruct (_ && _); exact H.
    + exact H.
    + exact H.
  - destruct (nth_error (threads g) n) as [[|text on_done]|]; try exact H.
    destruct (NPUModel.generate_response (model g) d text); [reflexivity | exact H].
Qed.

(** X5: after every event the context label shows the number of items of
    the context list: "Context: n items" with n the length of
    [current_context] (0 before the first submission). *)
Theorem context_counter_in_sync (evs : list event) :
  let g := run evs init in
  context_label (trace g) = items (length (current_context g)).
Proof.
  cbn zeta. unfold run.
  assert (H : forall g0, in_sync (view_of g0) ->
              in_sync (view_of (fold_left (fun g ev => step ev g) evs g0))).
  { induction evs as [|ev evs IH]; intros g0 H0; [exact H0|].
    cbn [fold_left]. apply IH. rewrite step_view.
    now apply view_after_in_sync. }
  apply (H init). reflexivity.
Qed.

Lemma view_after_grows (ev : event) (g : t) :
  exists added, v_context (view_after ev g) = current_context g ++ added.
Proof.
  destruct ev as [text | r | id | n d r]; cbn [view_after].
  - exists []. cbn. now rewrite app_nil_r.
  - destruct (accepts g); [now eexists | exists []; cbn; now rewrite app_nil_r].
  - exists []. rewrite app_nil_r.
    destruct (find _ (timers g)) as [tm|]; [|reflexivity].
    destruct (t_cb tm) as [| |count]; [destruct (_ && _) | | ];
      reflexivity.
  - destruct (nth_error (threads g) n) as [[|text on_done]|];
      try (exists []; cbn; now rewrite app_nil_r).
    destruct (NPUModel.generate_response (model g) d text);
      [now eexists | exists []; cbn; now rewrite app_nil_r].
Qed.

(** X6: the context list is append-only: whatever happens, the list of
    an earlier state is a prefix of the list of every later state;
    nothing is ever removed from it or changed in it. *)
Theorem context_is_append_only (evs : list event) (g : t) :
  exists added, current_context (run evs g) = current_context g ++ added.
Proof.
  revert g. induction evs as [|ev evs IH]; intros g.
  - exists []. cbn. now rewrite app_nil_r.
  - cbn [run fold_left]. destruct (IH (step ev g)) as [added2 E2].
    destruct (view_after_grows ev g) as [added1 E1].
    rewrite <- step_view in E1. cbn [view_of v_context] in E1.
    exists (added1 ++ added2). unfold run in E2. rewrite E2, E1.
    now rewrite app_assoc.
Qed.

End ContextList.

(* ================================================================== *)
(** ** A submission of the backend variant and what follows it *)

Module Turn.
Import PyStr Py Tk StrategySpec TurnSpec Footprint Scheduler ContextList.
Import CatSEEK_test CatSEEK_test.CatSeekGUI.
Local Open Scope py_scope.
Local Open Scope list_scope.

(** No answer of the model is in the transcript. *)
Definition unanswered (v : view) : Prop :=
  filter (fun e => String.eqb (fst e) "NPU") (v_inserts v) = [].

Lemma view_after_unanswered (ev : event) (g : t) :
  sched_ok (sched_of g) ->
  unanswered (view_of g) -> unanswered (view_after ev g).
Proof.
  intros [_ TU] H. unfold unanswered in *.
  destruct ev as [text | r | id | n d r]; cbn [view_after].
  - exact H.
  - destruct (accepts g); [|exact H].
    cbn [add_item v_inserts]. rewrite filter_app, H. reflexivity.
  - destruct (find _ (timers g)) as [tm|]; [|exact H].
    destruct (t_cb tm) as [| |count]; try exact H.
    destruct (_ && _); [|exact H].
    cbn [show v_inserts]. rewrite filter_app, H. reflexivity.
  - destruct (nth_error (threads g) n) as [th|] eqn:Hn; [|exact H].
    now rewrite (running_is_load (sched_of g) n th TU Hn).
Qed.

Lemma run_unanswered (evs : list event) (g : t) :
  sched_ok (sched_of g) -> unanswered (view_of g) ->
  unanswered (view_of (run evs g)).
Proof.
  revert g. induction evs as [|ev evs IH]; intros g S H; [exact H|].
  cbn [run fold_left]. apply IH.
  - rewrite step_sched. now apply sched_after_ok.
  - rewrite step_view. now apply view_after_unanswered.
Qed.

(** What an accepted submission leaves: the text at the end of the
    context list, the counter one higher, the user's line at the end of
    the transcript, and the timers and the threads as before. *)
Definition submitted (g g1 : t) (text : string) : Prop :=
  current_context g1 = current_context g ++ [text]
  /\ context_label (trace g1) = items (length (current_context g) + 1)
  /\ inserts (trace g1)
     = inserts (trace g)
       ++ [("USER", (String "010" "[USER]: " ++ text)%string)]
  /\ timers g1 = timers g
  /\ threads g1 = threads g.

(** X7: a submission the backend variant accepts is never answered.
    [send_message] appends the trimmed text to the context list, updates
    the counter and shows the user's line; the typing indicator then
    raises before the inference is started, so that no timer and no
    thread is added, and whatever happens afterwards no inference thread
    runs and no answer of the model is shown. *)
Theorem accepted_submission_is_never_answered (evs : list event) (r : nat) :
  let g := run evs init in
  accepts g = true ->
  let g1 := step (Ev_send r) g in
  submitted g g1 (strip (user_input g))
  /\ forall evs',
       let g2 := run evs' g1 in
       existsb is_inference (threads g2) = false
       /\ lines "NPU" (trace g2) = [].
Proof.
  intros g Ha g1.
  pose proof (step_sched (Ev_send r) g) as S1.
  pose proof (step_view (Ev_send r) g) as V1.
  cbn [sched_after view_after] in S1, V1. rewrite Ha in S1, V1.
  fold g1 in S1, V1.
  split.
  - unfold submitted. repeat split.
    + exact (f_equal v_context V1).
    + change (v_label (view_of g1) = items (length (current_context g) + 1)).
      rewrite V1. cbn [add_item v_label view_of v_context].
      f_equal. rewrite length_app. reflexivity.
    + exact (f_equal v_inserts V1).
    + exact (f_equal s_timers S1).
    + exact (f_equal s_threads S1).
  - intros evs' g2.
    assert (E : g2 = run (evs ++ Ev_send r :: evs') init).
    { subst g2 g1 g. unfold run. rewrite fold_left_app. reflexivity. }
    rewrite E. split.
    + destruct (reachable_sched_ok _ (ex_intro _ (evs ++ Ev_send r :: evs') eq_refl))
        as [_ [_ I _ _]].
      exact I.
    + apply (run_unanswered (evs ++ Ev_send r :: evs') init init_sched_ok).
      reflexivity.
Qed.

Lemma accepted_submission_is_never_answered_witness :
  let d := NPUModel.Build_draws 0 0 0 0 0 0 0 in
  let g := run [Ev_thread 0 d 0; Ev_timer 0; Ev_type "  hi there "] init in
  let g1 := step (Ev_send 0) g in
  submitted g g1 "hi there"
  /\ forall evs',
       let g2 := run evs' g1 in
       existsb is_inference (threads g2) = false
       /\ lines "NPU" (trace g2) = [].
Proof.
  intros d.
  apply (accepted_submission_is_never_answered
           [Ev_thread 0 d 0; Ev_timer 0; Ev_type "  hi there "] 0).
  reflexivity.
Defined.

End Turn.

(* ================================================================== *)
(** ** Runs of the simple variant *)

Module SimpleRun.
Import PyStr Py Tk StrategySpec TurnSpec.
Import CatSEEKR1 CatSEEKR1.CatSeekGUI.
Local Open Scope py_scope.
Local Open Scope list_scope.

(** What a timer of the simple variant runs when it fires; [r] is the
    draw of [random.choice]. *)
Definition run_callback (r : nat) (cb : callback) : M t unit :=
  match cb with
  | Cb_generate_response user_text => _generate_response r user_text
  | Cb_animate count => animate count
  end.

Definition set_timers (v : list timer) (g : t) : t :=
  {| user_input := user_input g;
     typing_animation := typing_animation g;
     imagination_running := imagination_running g;
     trace := trace g;
     timers := v;
     next_id := next_id g |}.

(** The main loop fires the timer [id]: the timer is taken away and its
    callback runs. *)
Definition fire (id r : nat) (g : t) : t :=
  match find (fun tm => (t_id tm =? id)%nat) (timers g) with
  | Some tm =>
      exec (run_callback r (t_cb tm))
        (set_timers (filter (fun tm => negb (t_id tm =? id)%nat) (timers g)) g)
  | None => g
  end.

(** What happens to the chat of the running program. *)
Inductive event : Type :=
| Ev_type (text : string)        (* the user edits the entry *)
| Ev_send                        (* Return, or the send button *)
| Ev_timer (id r : nat).         (* the main loop fires a timer *)

(** One step; an exception raised by a callback ends that callback and
    the program goes on. *)
Definition step (ev : event) (g : t) : t :=
  match ev with
  | Ev_type text => with_input text g
  | Ev_send => exec send_message g
  | Ev_timer id r => fire id r g
  end.

Definition run (evs : list event) (g : t) : t :=
  fold_left (fun g ev => step ev g) evs g.

(** The eight templates of the simple variant. *)
Definition templates : list string :=
  concat (map snd CatMind.responses).

(** The greeting [__init__] shows. *)
Definition greeting : string * string :=
  ("bot",
   (String "010" "Hi I'm Catseek. How can I help you today?"
      ++ String "010" "")%string).

(** X8: the simple variant always answers: [generate_response] never
    raises (the category is always a key of the table and no pool is
    empty) and returns a template of the pool of the text's category,
    hence one of the eight templates. *)
Theorem simple_answer_is_a_template (r : nat) (text : string) :
  exists resp,
    CatMind.generate_response r text = Ok resp
    /\ In resp (pool CatMind.responses (CatMind.category text))
    /\ In resp templates
    /\ length templates = 8.
Proof.
  destruct (ResponseStrategy.simple_generate_response_in_pool r text)
    as [resp [E Hin]].
  exists resp. split; [exact E|]. split; [exact Hin|]. split; [|reflexivity].
  destruct (ResponseStrategy.simple_category_cases text) as [C | [C | C]];
    rewrite C in Hin; cbn in Hin; cbn; tauto.
Qed.

(** What [send_message] does to the simple variant. *)
Lemma send_message_effect (g : t) :
  inserts (trace (exec send_message g))
  = (if truthy (strip (user_input g))
     then inserts (trace g)
          ++ [("user", (String "010" (strip (user_input g))
                          ++ String "010" "")%string)]
     else inserts (trace g))
  /\ timers (exec send_message g) = timers g
  /\ typing_animation (exec send_message g) = typing_animation g
  /\ result send_message g
     = if truthy (strip (user_input g)) then Raise TclError else Ok tt.
Proof.
  destruct g as [ui ta im tr tm ni].
  unfold result, exec, send_message, bind, gets. cbn [user_input].
  destruct (truthy (strip ui)); cbn [negb]; [|repeat split].
  remember (strip ui) as text eqn:E. clear E.
  repeat split.
Qed.

(** In the states the chat reaches no timer is pending, no tick is
    named and the greeting is the only bot line. *)
Record quiet (g : t) : Prop := {
  q_timers : timers g = [];
  q_animation : typing_animation g = None;
  q_bot : lines "bot" (trace g) = [greeting]
}.

Lemma step_quiet (ev : event) (g : t) : quiet g -> quiet (step ev g).
Proof.
  intros [T A B]. destruct ev as [text | | id r]; cbn [step].
  - constructor; assumption.
  - destruct (send_message_effect g) as [I [T' [A' _]]].
    constructor; [congruence | congruence |].
    unfold lines in *. rewrite I.
    destruct (truthy (strip (user_input g))); [|exact B].
    rewrite filter_app, B. reflexivity.
  - unfold fire. rewrite T. cbn [find]. constructor; assumption.
Qed.

Lemma run_quiet (evs : list event) (g : t) : quiet g -> quiet (run evs g).
Proof.
  revert g. induction evs as [|ev evs IH]; intros g Q; [exact Q|].
  cbn [run fold_left]. apply IH. now apply step_quiet.
Qed.

(** X9: a submission of the simple variant is never answered.
    [send_message] shows the user's line and, with the text widget just
    made NORMAL, raises in the first [delete("typing")] of the
    animation, before the response is scheduled: the timers and
    [typing_animation] are as before.  So in every state the chat
    reaches no timer is pending, [typing_animation] is [None] and the
    greeting is the only bot line of the transcript. *)
Theorem simple_submission_is_never_answered :
  (forall g : t,
      truthy (strip (user_input g)) = true ->
      let g1 := exec send_message g in
      result send_message g = Raise TclError
      /\ inserts (trace g1)
         = inserts (trace g)
           ++ [("user", (String "010" (strip (user_input g))
                           ++ String "010" "")%string)]
      /\ timers g1 = timers g
      /\ typing_animation g1 = typing_animation g)
  /\ (forall evs : list event,
         let g := run evs init in
         timers g = []
         /\ typing_animation g = None
         /\ lines "bot" (trace g) = [greeting]).
Proof.
  split.
  - intros g Ht g1. destruct (send_message_effect g) as [I [T [A R]]].
    rewrite Ht in I, R. now repeat split.
  - intros evs g.
    assert (Q : quiet g).
    { apply run_quiet. constructor; reflexivity. }
    destruct Q as [T A B]. now repeat split.
Qed.

Lemma simple_submission_is_never_answered_witness :
  (let g := with_input " hello " init in
   let g1 := exec send_message g in
   result send_message g = Raise TclError
   /\ inserts (trace g1)
      = [greeting; ("user", (String "010" "hello" ++ String "010" "")%string)]
   /\ timers g1 = []
   /\ typing_animation g1 = None)
  /\ (let g := run [Ev_type "hello"; Ev_send; Ev_timer 0 0; Ev_type "you?";
                    Ev_send] init in
      timers g = []
      /\ typing_animation g = None
      /\ lines "bot" (trace g) = [greeting]).
Proof.
  destruct simple_submission_is_never_answered as [A B]. split.
  - apply (A (with_input " hello " init)). reflexivity.
  - apply (B [Ev_type "hello"; Ev_send; Ev_timer 0 0; Ev_type "you?";
              Ev_send]).
Defined.

End SimpleRun.

(* ================================================================== *)
(** ** The classification of a text, in terms of substrings *)

Module Classification.
Import PyStr Py PyStrFacts StrategySpec ResponseStrategy.
Local Open Scope list_scope.

(** The text contains a question mark. *)
Definition has_question_mark (text : string) : Prop :=
  exists pre post, text = (pre ++ "?" ++ post)%string.

Lemma question_mark_spec (text : string) :
  contains "?" text = true <-> has_question_mark text.
Proof. apply contains_spec. Qed.

(** X10: the category is decided by two substring tests.  Without a
    greeting keyword, a text with a question mark is a question in both
    variants and a text without one falls to "technical" (backend) or
    "default" (simple); the variants differ on the texts that have both
    a keyword and a question mark, and in the name of the fallback. *)
Theorem category_decision_table (text : string) :
  (~ contains_greeting text -> has_question_mark text ->
   CatSEEK_test.NPUModel.category text = "question"
   /\ CatSEEKR1.CatMind.category text = "question")
  /\ (~ contains_greeting text -> ~ has_question_mark text ->
      CatSEEK_test.NPUModel.category text = "technical"
      /\ CatSEEKR1.CatMind.category text = "default")
  /\ (CatSEEK_test.NPUModel.category text = "greeting"
      <-> contains_greeting text)
  /\ (CatSEEKR1.CatMind.category text = "question"
      <-> has_question_mark text)
  /\ (CatSEEKR1.CatMind.category text = "hello"
      <-> contains_greeting text /\ ~ has_question_mark text).
Proof.
  rewrite contains_greeting_npu. rewrite <- question_mark_spec.
  unfold CatSEEK_test.NPUModel.category, CatSEEKR1.CatMind.category.
  change CatSEEKR1.CatMind.greets with CatSEEK_test.NPUModel.greets.
  destruct (any_in CatSEEK_test.NPUModel.greets (lower text));
    destruct (contains "?" text);
    repeat split; intros; try reflexivity; try discriminate;
    try contradiction; try tauto; try congruence.
  all: try (match goal with H : _ /\ _ |- _ => destruct H end; congruence).
Qed.

Lemma category_decision_table_witness :
  CatSEEK_test.NPUModel.category "this works" = "greeting"
  /\ CatSEEK_test.NPUModel.category "what now?" = "question"
  /\ CatSEEKR1.CatMind.category "what now?" = "question"
  /\ CatSEEK_test.NPUModel.category "run" = "technical"
  /\ CatSEEKR1.CatMind.category "run" = "default".
Proof.
  assert (N1 : ~ contains_greeting "what now?").
  { intros H. apply contains_greeting_npu in H. discriminate H. }
  assert (N2 : ~ contains_greeting "run").
  { intros H. apply contains_greeting_npu in H. discriminate H. }
  assert (Q1 : has_question_mark "what now?") by (now exists "what now", "").
  assert (Q2 : ~ has_question_mark "run").
  { intros H. apply question_mark_spec in H. discriminate H. }
  destruct (category_decision_table "what now?") as [A _].
  destruct (category_decision_table "run") as [_ [B _]].
  destruct (category_decision_table "this works") as [_ [_ [C _]]].
  split; [|split; [apply (A N1 Q1) | split; [apply (A N1 Q1) |
           split; [apply (B N2 Q2) | apply (B N2 Q2)]]]].
  apply C. exists "hi", "t", "s works"%string. split; [simpl; auto|].
  reflexivity.
Defined.

End Classification.

(* ================================================================== *)
(** ** The "Cat Vision" window of the simple variant *)

From Stdlib Require Import ZArith Floats Uint63.

Module Imagination.
Import PyStr Py Tk.
Import CatSEEKR1 CatSEEKR1.CatSeekGUI.
Local Open Scope py_scope.
Local Open Scope list_scope.

(** The calls on the canvas of a window. *)
Inductive canvas_call : Type :=
| CanvasDelete (what : string)                       (* canvas.delete("all") *)
| CanvasCreateText (x y : Z) (text fill : string).   (* canvas.create_text *)

(** The window object with the "Cat Vision" windows around it: the open
    [Toplevel] windows, the calls made on their canvases (newest first)
    and the pending [imagine_window.after(16, animate, frame)]
    callbacks, each with its window. *)
Record t : Type := {
  gui : CatSeekGUI.t;
  windows : list nat;
  next_window : nat;
  canvas : list (nat * canvas_call);
  frames : list (nat * nat)
}.

Definition cat_art : list string :=
  [" /\_/\  "; "( o.o ) "; " > ^ <  "].

(** [int(f)] for a finite float [f >= 0] below 2^53: the digits before
    the binary point of its mantissa. *)
Definition py_int (f : float) : Z :=
  let (m, e) := PrimFloat.frshiftexp f in
  let mantissa := Uint63.to_Z (PrimFloat.normfr_mantissa m) in
  let exponent := (Uint63.to_Z e - FloatOps.shift)%Z in
  Z.shiftr mantissa (53 - exponent).

(** [50 + int(10 * (1 + (frame % 60)/30))], in binary64 arithmetic. *)
Definition y_offset (frame : nat) : Z :=
  let k := PrimFloat.of_uint63 (Uint63.of_Z (Z.of_nat (frame mod 60))) in
  (50 + py_int (10 * (1 + k / 30))%float)%Z.

Definition set_running (b : bool) (s : t) : t :=
  {| gui := {| user_input := user_input (gui s);
               typing_animation := typing_animation (gui s);
               imagination_running := b;
               trace := trace (gui s);
               timers := timers (gui s);
               next_id := next_id (gui s) |};
     windows := windows s; next_window := next_window s;
     canvas := canvas s; frames := frames s |}.

(** [tk.Toplevel(self.master)] with its canvas. *)
Definition new_window : M t nat :=
  fun s =>
    (Ok (next_window s),
     {| gui := gui s; windows := windows s ++ [next_window s];
        next_window := S (next_window s);
        canvas := canvas s; frames := frames s |}).

(** [window.destroy()] *)
Definition destroy (w : nat) : M t unit :=
  modify (fun s =>
    {| gui := gui s;
       windows := filter (fun w' => negb (w' =? w)%nat) (windows s);
       next_window := next_window s;
       canvas := canvas s; frames := frames s |}).

Definition on_canvas (w : nat) (c : canvas_call) : M t unit :=
  modify (fun s =>
    {| gui := gui s; windows := windows s; next_window := next_window s;
       canvas := (w, c) :: canvas s; frames := frames s |}).

(** [imagine_window.after(16, animate, frame)] *)
Definition after_frame (w frame : nat) : M t unit :=
  modify (fun s =>
    {| gui := gui s; windows := windows s; next_window := next_window s;
       canvas := canvas s; frames := frames s ++ [(w, frame)] |}).

(** The loop over [enumerate(cat_art)], from index [i] on. *)
Fixpoint draw_lines (w : nat) (y : Z) (i : nat) (lines : list string)
  : M t unit :=
  match lines with
  | [] => ret tt
  | line :: rest =>
      on_canvas w
        (CanvasCreateText 150 (y + Z.of_nat i * 20) line "#7BC0F8") ;;
      draw_lines w y (S i) rest
  end.

(** The inner [animate] of [start_imagination], for the window [w]. *)
Definition animate (w frame : nat) : M t unit :=
  running <- gets (fun s => imagination_running (gui s)) ;;
  if negb running then ret tt
  else
    on_canvas w (CanvasDelete "all") ;;
    draw_lines w (y_offset frame) 0 cat_art ;;
    after_frame w (frame + 1).

Definition start_imagination : M t unit :=
  running <- gets (fun s => imagination_running (gui s)) ;;
  if running then ret tt
  else
    modify (set_running true) ;;
    w <- new_window ;;
    animate w 0.

Definition _stop_imagination (w : nat) : M t unit :=
  modify (set_running false) ;;
  destroy w.

(** What happens around the "Cat Vision" window. *)
Inductive event : Type :=
| Ev_catthink                      (* the Catthink button *)
| Ev_close (w : nat)               (* the close button of the window w *)
| Ev_frame (w frame : nat).        (* a pending animate callback fires *)

Definition step (ev : event) (s : t) : t :=
  match ev with
  | Ev_catthink => exec start_imagination s
  | Ev_close w =>
      if existsb (Nat.eqb w) (windows s) then exec (_stop_imagination w) s
      else s
  | Ev_frame w frame =>
      if existsb (fun p => (fst p =? w)%nat && (snd p =? frame)%nat) (frames s)
      then
        exec (animate w frame)
          {| gui := gui s; windows := windows s;
             next_window := next_window s; canvas := canvas s;
             frames := filter
                         (fun p => negb ((fst p =? w)%nat && (snd p =? frame)%nat))
                         (frames s) |}
      else s
  end.

Definition run (evs : list event) (s : t) : t :=
  fold_left (fun s ev => step ev s) evs s.

(** The program after [__init__]: no "Cat Vision" window yet. *)
Definition init : t :=
  {| gui := CatSeekGUI.init; windows := []; next_window := 0;
     canvas := []; frames := [] |}.

End Imagination.

Module ImaginationFacts.
Import PyStr Py Tk.
Import CatSEEKR1 CatSEEKR1.CatSeekGUI.
Import Imagination.
Local Open Scope py_scope.
Local Open Scope list_scope.

(** The offsets of one period of 60 frames, checked frame by frame. *)
Lemma y_offset_period :
  forallb (fun k => Z.eqb (y_offset k) (Z.of_nat (60 + k / 3))) (seq 0 60)
  = true.
Proof. vm_compute. reflexivity. Qed.

Lemma y_offset_mod (frame : nat) : y_offset frame = y_offset (frame mod 60).
Proof.
  unfold y_offset. rewrite Nat.Div0.mod_mod. reflexivity.
Qed.

Lemma y_offset_value (frame : nat) :
  y_offset frame = Z.of_nat (60 + (frame mod 60) / 3).
Proof.
  rewrite y_offset_mod.
  pose proof y_offset_period as H. rewrite forallb_forall in H.
  apply Z.eqb_eq. apply H. apply in_seq.
  pose proof (Nat.mod_upper_bound frame 60 ltac:(discriminate)). lia.
Qed.

(** X11: one frame of the animation, while the window is running: the
    canvas is cleared, the three lines of the cat are drawn at x = 150
    and y, y + 20, y + 40 with y = 60 + (frame mod 60) div 3 (the float
    expression of the source, evaluated in binary64), and the next frame
    is scheduled; so the text stays between y = 60 and y = 119 of the
    window, which is 200 high. *)
Theorem animate_draws_inside_window (w frame : nat) (s : t) :
  imagination_running (gui s) = true ->
  let y := Z.of_nat (60 + (frame mod 60) / 3) in
  let s' := exec (animate w frame) s in
  y_offset frame = y
  /\ (60 <= y <= 79)%Z
  /\ canvas s'
     = [ (w, CanvasCreateText 150 (y + 40) " > ^ <  " "#7BC0F8");
         (w, CanvasCreateText 150 (y + 20) "( o.o ) " "#7BC0F8");
         (w, CanvasCreateText 150 y " /\_/\  " "#7BC0F8");
         (w, CanvasDelete "all") ] ++ canvas s
  /\ frames s' = frames s ++ [(w, frame + 1)].
Proof.
  intros Hr y s'.
  pose proof (y_offset_value frame) as Ey. fold y in Ey.
  split; [exact Ey|]. split.
  { subst y. pose proof (Nat.mod_upper_bound frame 60 ltac:(discriminate)) as Hb.
    assert (Hd : (frame mod 60) / 3 < 20).
    { apply Nat.Div0.div_lt_upper_bound. lia. }
    lia. }
  subst s'. unfold exec, animate, bind, gets. cbn [fst snd]. rewrite Hr.
  cbn [negb]. rewrite Ey. clear Ey. clearbody y.
  destruct s as [g ws nw cv fr]. cbn.
  rewrite Z.add_0_r. split; reflexivity.
Qed.

Lemma animate_draws_inside_window_witness :
  let s := exec start_imagination init in
  let y := Z.of_nat (60 + (45 mod 60) / 3) in
  let s' := exec (animate 0 45) s in
  y_offset 45 = y
  /\ (60 <= y <= 79)%Z
  /\ canvas s'
     = [ (0, CanvasCreateText 150 (y + 40) " > ^ <  " "#7BC0F8");
         (0, CanvasCreateText 150 (y + 20) "( o.o ) " "#7BC0F8");
         (0, CanvasCreateText 150 y " /\_/\  " "#7BC0F8");
         (0, CanvasDelete "all") ] ++ canvas s
  /\ frames s' = frames s ++ [(0, 45 + 1)].
Proof.
  intros s.
  apply (animate_draws_inside_window 0 45 s). reflexivity.
Defined.

(** At most one window is open, and one is open exactly while
    [imagination_running] is set. *)
Definition window_inv (s : t) : Prop :=
  (imagination_running (gui s) = true /\ exists w, windows s = [w])
  \/ (imagination_running (gui s) = false /\ windows s = []).

Lemma animate_keeps_windows (w frame : nat) (s : t) :
  windows (exec (animate w frame) s) = windows s
  /\ imagination_running (gui (exec (animate w frame) s))
     = imagination_running (gui s).
Proof.
  destruct s as [g ws nw cv fr].
  unfold exec, animate, bind, gets. cbn [fst snd gui].
  destruct (imagination_running g) eqn:E; cbn -[y_offset]; split;
    first [reflexivity | exact E].
Qed.

Lemma step_window_inv (ev : event) (s : t) :
  window_inv s -> window_inv (step ev s).
Proof.
  intros H. destruct ev as [|w|w frame]; cbn [step].
  - destruct H as [[Hr [w Hw]] | [Hr Hw]].
    + unfold exec, start_imagination, bind, gets. cbn [fst snd].
      rewrite Hr. left. split; [exact Hr | now exists w].
    + destruct s as [g ws nw cv fr]. cbn in Hr, Hw. subst ws.
      unfold exec, start_imagination, bind, gets. cbn [fst snd gui].
      rewrite Hr. left. split; [reflexivity | now exists nw].
  - destruct (existsb (Nat.eqb w) (windows s)) eqn:E; [|exact H].
    destruct H as [[Hr [w' Hw]] | [Hr Hw]].
    + rewrite Hw in E. cbn in E. rewrite orb_false_r in E.
      apply Nat.eqb_eq in E. subst w'.
      destruct s as [g ws nw cv fr]. cbn in Hw. subst ws.
      right. cbn. now rewrite Nat.eqb_refl.
    + rewrite Hw in E. discriminate E.
  - destruct (existsb _ (frames s)); [|exact H].
    match goal with
    | |- window_inv (exec (animate w frame) ?s0) =>
        destruct (animate_keeps_windows w frame s0) as [Ew Er]
    end.
    unfold window_inv. rewrite Ew, Er. exact H.
Qed.

(** X12: the Catthink button opens at most one "Cat Vision" window:
    whatever the user clicks and whichever frames fire, at most one
    window is open, one is open exactly while [imagination_running] is
    set, and pressing Catthink while it is set changes nothing. *)
Theorem at_most_one_cat_vision_window (evs : list event) :
  let s := run evs init in
  length (windows s) <= 1
  /\ (imagination_running (gui s) = true <-> windows s <> [])
  /\ (imagination_running (gui s) = true -> step Ev_catthink s = s).
Proof.
  intros s.
  assert (H : window_inv s).
  { subst s. unfold run.
    assert (G : forall s0, window_inv s0 ->
                window_inv (fold_left (fun s ev => step ev s) evs s0)).
    { induction evs as [|ev evs IH]; intros s0 H0; [exact H0|].
      cbn [fold_left]. apply IH. now apply step_window_inv. }
    apply G. right. split; reflexivity. }
  destruct H as [[Hr [w Hw]] | [Hr Hw]]; rewrite Hw, Hr; cbn.
  - repeat split; try lia; try discriminate.
    intros _. unfold exec, start_imagination, bind, gets. cbn [fst snd].
    now rewrite Hr.
  - repeat split; try lia; try discriminate. intros H. now contradiction H.
Qed.

Lemma at_most_one_cat_vision_window_witness :
  let s := run [Ev_catthink; Ev_frame 0 1; Ev_catthink] init in
  windows s = [0] /\ step Ev_catthink s = s.
Proof.
  intros s. split; [reflexivity|].
  destruct (at_most_one_cat_vision_window
              [Ev_catthink; Ev_frame 0 1; Ev_catthink]) as [_ [_ H]].
  apply H. reflexivity.
Defined.

End ImaginationFacts.

(* ================================================================== *)
(** ** The entry after a submission; the animation of a single turn *)

Module AfterSubmit.
Import PyStr Py Tk GateSpec Footprint Scheduler.
Import CatSEEK_test CatSEEK_test.CatSeekGUI.
Local Open Scope py_scope.
Local Open Scope list_scope.

Lemma send_message_clears_entry (r : nat) (g : t) :
  accepts g = true ->
  input_enabled (trace g) = true ->
  user_input (exec (send_message r) g) = ""%string
  /\ current (exec (send_message r) g) = current g.
Proof.
  intros Ha He. destruct (accepts_true g Ha) as [Ht Hr].
  destruct g as [m a cc mr ti ta ui tr tm ni th cu].
  cbn [user_input model_ready trace current] in *. subst mr.
  unfold exec, send_message, bind, gets. cbn [user_input model_ready].
  rewrite Ht. cbn [negb orb].
  remember (strip ui) as text eqn:E. clear E Ht.
  cbv -[Datatypes.app append str_of_nat randint input_enabled].
  match goal with
  | |- context [input_enabled ?x] =>
      replace (input_enabled x) with true by (symmetry; exact He)
  end.
  split; reflexivity.
Qed.

Lemma send_message_blank (r : nat) (g : t) :
  user_input g = ""%string -> exec (send_message r) g = g.
Proof.
  intros E. unfold exec, send_message, bind, gets. cbn [fst snd]. now rewrite E.
Qed.

(** X13: an accepted submission empties the entry, so pressing Return
    (or the send button) again without typing does nothing, in both
    variants: the second [send_message] leaves the state as the first
    one left it. *)
Theorem send_twice_sends_once :
  (forall (evs : list event) (r r' : nat),
      let g := run evs init in
      accepts g = true ->
      let g1 := step (Ev_send r) g in
      user_input g1 = ""%string /\ step (Ev_send r') g1 = g1)
  /\ (forall g : R1.t,
         truthy (strip (R1.user_input g)) = true ->
         let g1 := exec R1.send_message g in
         R1.user_input g1 = ""%string /\ exec R1.send_message g1 = g1).
Proof.
  split.
  - intros evs r r' g Ha g1.
    pose proof (ReadinessGate.reachable_inv g (ex_intro _ evs eq_refl))
      as [_ _ _ I4].
    subst g1. clearbody g.
    destruct (accepts_true g Ha) as [_ Hr]. rewrite Hr in I4.
    assert (Ha' : accepts (set_current UI g) = true)
      by (destruct g; exact Ha).
    assert (He' : input_enabled (trace (set_current UI g)) = true)
      by (destruct g; exact I4).
    destruct (send_message_clears_entry r (set_current UI g) Ha' He')
      as [Eu Ec].
    cbn [step]. split; [exact Eu|].
    set (g1 := exec (send_message r) (set_current UI g)) in *.
    clearbody g1.
    assert (C : current g1 = UI) by (rewrite Ec; destruct g; reflexivity).
    assert (Ecur : set_current UI g1 = g1).
    { destruct g1. cbn [current] in C. subst. reflexivity. }
    rewrite Ecur. apply send_message_blank. exact Eu.
  - intros g Ht g1.
    assert (Eu : R1.user_input g1 = ""%string).
    { subst g1. destruct g as [ui ta im tr tm ni]. cbn [R1.user_input] in Ht.
      unfold exec, R1.send_message, bind, gets. cbn [R1.user_input fst snd].
      rewrite Ht. reflexivity. }
    split; [exact Eu|]. clearbody g1.
    unfold exec, R1.send_message, bind, gets. cbn [fst snd].
    rewrite Eu. reflexivity.
Qed.

Lemma send_twice_sends_once_witness :
  (let g := run [Ev_thread 0 (NPUModel.Build_draws 0 0 0 0 0 0 0) 0;
                 Ev_timer 0; Ev_type "a"] init in
   let g1 := step (Ev_send 0) g in
   user_input g1 = ""%string /\ step (Ev_send 1) g1 = g1)
  /\ (let g1 := exec R1.send_message (R1.with_input "a" R1.init) in
      R1.user_input g1 = ""%string /\ exec R1.send_message g1 = g1).
Proof.
  destruct send_twice_sends_once as [A B]. split.
  - apply (A [Ev_thread 0 (NPUModel.Build_draws 0 0 0 0 0 0 0) 0;
              Ev_timer 0; Ev_type "a"] 0 1). reflexivity.
  - apply (B (R1.with_input "a" R1.init)). reflexivity.
Defined.

End AfterSubmit.

Module SingleTurn.
Import PyStr Py Tk Footprint Scheduler.
Import CatSEEK_test CatSEEK_test.CatSeekGUI.
Local Open Scope py_scope.
Local Open Scope list_scope.











End SingleTurn.
